(** * Blog API: request handlers for posts and comments

    A shallow embedding of the Express/Mongoose controllers
    ([posts_controller] and [comments_controller]) together with the
    express-validator chains they run, and the properties of the
    request-handling layer proved over that embedding.

    Conventions.
    - A JavaScript string is a [string] whose characters are read as code
      units below 256 (the Latin-1 range).
    - A Mongo collection is a finite map from [_id] to document.
    - A handler is a computation over the database that may throw; every
      persistence call it issues is recorded in a trace. *)

From Stdlib Require Import ZArith Ascii String.
From stdpp Require Import base option list gmap strings sorting.

Open Scope string_scope.
Open Scope Z_scope.

(** ** JavaScript strings *)

Module JsString.

Definition LF : ascii := "010"%char.
Definition CR : ascii := "013"%char.

Definition code (c : ascii) : N := N_of_ascii c.

(** The regular-expression class [\s] restricted to code units below 256:
    TAB, LF, VT, FF, CR, SPACE and NBSP. *)
Definition is_space (c : ascii) : bool :=
  let n := code c in
  ((9 <=? n) && (n <=? 13) || (n =? 32) || (n =? 160))%N.

Definition is_LF (c : ascii) : bool := Ascii.eqb c LF.
Definition is_CR (c : ascii) : bool := Ascii.eqb c CR.

Fixpoint concat_map (f : ascii -> string) (s : string) : string :=
  match s with
  | EmptyString => EmptyString
  | String c r => f c ++ concat_map f r
  end.

Fixpoint map (f : ascii -> ascii) (s : string) : string :=
  match s with
  | EmptyString => EmptyString
  | String c r => String (f c) (map f r)
  end.

Fixpoint filter (p : ascii -> bool) (s : string) : string :=
  match s with
  | EmptyString => EmptyString
  | String c r => if p c then String c (filter p r) else filter p r
  end.

Fixpoint forallb (p : ascii -> bool) (s : string) : bool :=
  match s with
  | EmptyString => true
  | String c r => p c && forallb p r
  end.

Fixpoint existsb (p : ascii -> bool) (s : string) : bool :=
  match s with
  | EmptyString => false
  | String c r => p c || existsb p r
  end.

Fixpoint join (sep : string) (l : list string) : string :=
  match l with
  | [] => EmptyString
  | [p] => p
  | p :: ps => p ++ sep ++ join sep ps
  end.

(** [String.prototype.toLowerCase] on code units below 256: A-Z and the
    accented capitals U+00C0..U+00DE (U+00D7, the multiplication sign,
    apart) move up by 32. *)
Definition lower_char (c : ascii) : ascii :=
  let n := code c in
  if ((65 <=? n) && (n <=? 90) ||
      (192 <=? n) && (n <=? 222) && negb (n =? 215))%N
  then ascii_of_N (n + 32) else c.

Definition toLowerCase (s : string) : string := map lower_char s.

(** [str.replace(/^\s+/g, '')] *)
Fixpoint ltrim (s : string) : string :=
  match s with
  | EmptyString => EmptyString
  | String c r => if is_space c then ltrim r else s
  end.

(** validator's [rtrim]: walk back from the last index while the character
    there is white space, then [slice(0, index + 1)]. *)
Fixpoint rtrim (s : string) : string :=
  match s with
  | EmptyString => EmptyString
  | String c r =>
      match rtrim r with
      | EmptyString => if is_space c then EmptyString else String c EmptyString
      | r' => String c r'
      end
  end.

(** [text.replaceAll('\r', '')] *)
Definition remove_CR (s : string) : string :=
  filter (fun c => negb (is_CR c)) s.

(** [text.replaceAll(/\n+/g, '\n')]: a left-to-right scan.  [collapse_LF]
    is the scanner between matches; at a line feed the greedy [\n+] starts,
    one line feed is emitted and [in_run] consumes the rest of the run. *)
Fixpoint collapse_LF (s : string) : string :=
  match s with
  | EmptyString => EmptyString
  | String c r =>
      if is_LF c then String LF (in_run r) else String c (collapse_LF r)
  end
with in_run (s : string) : string :=
  match s with
  | EmptyString => EmptyString
  | String c r =>
      if is_LF c then in_run r else String c (collapse_LF r)
  end.

(** [text.split('\n')]: one more piece than there are separators. *)
Fixpoint split_LF (s : string) : list string :=
  match s with
  | EmptyString => [EmptyString]
  | String c r =>
      if is_LF c then EmptyString :: split_LF r
      else match split_LF r with
           | p :: ps => String c p :: ps
           | [] => [String c EmptyString]
           end
  end.

End JsString.

(** ** validator.js sanitizers and validators *)

Module Validator.
Import JsString.

(** [trim(str)] with no character set: [rtrim(ltrim(str))]. *)
Definition trim (s : string) : string := rtrim (ltrim s).

Definition QUOT : ascii := "034"%char.
Definition BSLASH : ascii := "092"%char.

(** [escape]: the chain of [replace] calls rewrites [&] first, so the
    ampersands the later replacements introduce are never rewritten again;
    the effect is one substitution per character. *)
Definition escape_char (c : ascii) : string :=
  if Ascii.eqb c "&" then "&amp;"
  else if Ascii.eqb c QUOT then "&quot;"
  else if Ascii.eqb c "'" then "&#x27;"
  else if Ascii.eqb c "<" then "&lt;"
  else if Ascii.eqb c ">" then "&gt;"
  else if Ascii.eqb c "/" then "&#x2F;"
  else if Ascii.eqb c BSLASH then "&#x5C;"
  else if Ascii.eqb c "`" then "&#96;"
  else String c EmptyString.

Definition escape (s : string) : string := concat_map escape_char s.

(** [isEmpty(str)] with the default options: [str.length === 0]. *)
Definition isEmpty (s : string) : bool := String.eqb s EmptyString.

(** [isIn(str, values)] for an array of values. *)
Definition isIn (values : list string) (s : string) : bool :=
  List.existsb (String.eqb s) values.

End Validator.

(** ** Custom sanitizers of the controllers *)

Definition convertToArrayOfParagraphs (text : string) : list string :=
  JsString.split_LF (JsString.collapse_LF (JsString.remove_CR text)).

(** [(selection: string): boolean => selection === 'yes'] *)
Definition selectionIsYes (selection : string) : bool :=
  String.eqb selection "yes".

(** ** express-validator chains

    A chain is bound to one field of [req.body]; its items run in order on
    the current value of the field, sanitizers writing the new value back
    and failed validators adding an error under the chain's message.  No
    chain of the controllers bails, so every item runs. *)

Module ExpressValidator.

Inductive Value :=
| VUndefined
| VString (s : string)
| VBool (b : bool)
| VArray (l : list string).

#[global] Instance Value_eq_dec : EqDecision Value.
Proof. solve_decision. Defined.

(** The library's [toString]: [undefined] becomes the empty string, an
    array stands for its first element. *)
Definition toString (v : Value) : string :=
  match v with
  | VUndefined => ""
  | VString s => s
  | VBool true => "true"
  | VBool false => "false"
  | VArray (x :: _) => x
  | VArray [] => ""
  end.

Inductive Item :=
| Sanitizer (f : string -> string)
| CustomSanitizer (f : Value -> Value)
| Validator (negated : bool) (p : string -> bool).

Record ValidationChain := {
  path : string;
  message : string;
  isOptional : bool;
  stack : list Item;
}.

Record ValidationError := {
  err_value : Value;
  err_msg : string;
  err_path : string;
}.

Definition body (field msg : string) : ValidationChain :=
  {| path := field; message := msg; isOptional := false; stack := [] |}.

Definition push (i : Item) (c : ValidationChain) : ValidationChain :=
  {| path := path c; message := message c; isOptional := isOptional c;
     stack := (stack c ++ [i])%list |}.

Definition optional (c : ValidationChain) : ValidationChain :=
  {| path := path c; message := message c; isOptional := true;
     stack := stack c |}.

Definition trim := push (Sanitizer Validator.trim).
Definition escape := push (Sanitizer Validator.escape).

(** [toLowerCase()] is a custom sanitizer of the library: a value that is
    not a string is returned as it is. *)
Definition toLowerCase :=
  push (CustomSanitizer
          (fun v =>
             match v with
             | VString s => VString (JsString.toLowerCase s)
             | other => other
             end)).

Definition notEmpty := push (Validator true Validator.isEmpty).
Definition isIn (values : list string) :=
  push (Validator false (Validator.isIn values)).
Definition customSanitizer (f : Value -> Value) := push (CustomSanitizer f).

(** A standard sanitizer acts on the stringified value (on each element of
    an array); a standard validator reports an error for every value on
    which the check, negated or not, does not hold. *)
Definition run_item (c : ValidationChain) (i : Item) (v : Value)
  : Value * list ValidationError :=
  match i with
  | Sanitizer f =>
      (match v with
       | VArray l => VArray (List.map f l)
       | _ => VString (f (toString v))
       end, [])
  | CustomSanitizer f => (f v, [])
  | Validator negated p =>
      let failed (s : string) := Bool.eqb (p s) negated in
      let values := match v with VArray l => l | _ => [toString v] end in
      (v, List.map
            (fun _ => {| err_value := v; err_msg := message c;
                         err_path := path c |})
            (List.filter failed values))
  end.

Fixpoint run_stack (c : ValidationChain) (items : list Item) (v : Value)
  : Value * list ValidationError :=
  match items with
  | [] => (v, [])
  | i :: rest =>
      let '(v1, e1) := run_item c i v in
      let '(v2, e2) := run_stack c rest v1 in
      (v2, (e1 ++ e2)%list)
  end.

Definition isUndefined (v : Value) : bool :=
  match v with VUndefined => true | _ => false end.

Definition field (b : gmap string Value) (k : string) : Value :=
  default VUndefined (b !! k).

(** Running one chain as middleware: an optional chain leaves an absent
    field alone; otherwise the final value is stored back when it differs
    from what the request held. *)
Definition run_chain (c : ValidationChain)
    (st : gmap string Value * list ValidationError)
  : gmap string Value * list ValidationError :=
  let '(b, errs) := st in
  let v := field b (path c) in
  if isOptional c && isUndefined v then (b, errs)
  else
    let '(v', es) := run_stack c (stack c) v in
    ((if decide (v' = v) then b else <[path c := v']> b), (errs ++ es)%list).

Definition run_chains (cs : list ValidationChain) (raw : gmap string string)
  : gmap string Value * list ValidationError :=
  fold_left (fun st c => run_chain c st) cs (VString <$> raw, []).

End ExpressValidator.

Notation "c |> f" := (f c) (at level 45, left associativity, only parsing).

(** ** Documents and collections *)

Definition ObjectId := string.

(** [dist/models/Author.js]: a unique, required [name]; no version key. *)
Module Author.
Record t := { name : string }.
Definition fields (id : ObjectId) (a : t) : list (string * string) :=
  [("_id", id); ("name", name a)].
End Author.

(** Modelled from the spec: the Post schema ([models/Post]) is not part of
    the sources.  The fields are those the controllers read and write.
    [commentCount] is the counter the comment handlers [$inc]; the spec
    names a default for [isPublished] only, so the schema is taken to
    declare none for [commentCount]: a document made by [new Post] has no
    such path, an update with that document does not set it, and a post
    without the path counts 0 comments. *)
Module Post.
Record t := {
  author : ObjectId;
  title : string;
  timestamp : Z;
  category : string;
  text : list string;
  isPublished : bool;
  commentCount : Z;
}.
End Post.

(** The object literal handed to [new Post<PostModel>({...})], which is
    also every path the document built from it holds. *)
Record PostModel := {
  pm_id : option ObjectId;
  pm_author : ObjectId;
  pm_title : string;
  pm_timestamp : Z;
  pm_category : string;
  pm_text : list string;
  pm_isPublished : bool;
}.

(** Modelled from the spec: the Comment schema ([models/Comment]) is not
    part of the sources.  The fields are those [new Comment<CommentModel>]
    is given; [commenter] refers to an Author and [post] to a Post. *)
Module Comment.
Record t := {
  commenter : ObjectId;
  post : ObjectId;
  timestamp : Z;
  text : string;
  replies : list ObjectId;
}.
End Comment.

(** A comment after [populate('commenter', select)]: the reference is
    replaced by the selected fields of the document it points to, or by
    [null] when there is none. *)
Record PopulatedComment := {
  pc_commenter : option (list (string * string));
  pc_post : ObjectId;
  pc_timestamp : Z;
  pc_text : string;
  pc_replies : list ObjectId;
}.

Record DB := {
  posts : gmap string Post.t;
  comments : gmap string Comment.t;
  authors : gmap string Author.t;
}.

(** ** Mongoose queries *)

Inductive PostUpdate :=
| SetDocument (d : PostModel)
| SetIsPublished (b : bool)
| IncCommentCount (n : Z).

(** An update sets the paths it names and leaves the others; a document
    given as the update sets the paths the document holds. *)
Definition applyPostUpdate (u : PostUpdate) (p : Post.t) : Post.t :=
  match u with
  | SetDocument d =>
      {| Post.author := pm_author d; Post.title := pm_title d;
         Post.timestamp := pm_timestamp d; Post.category := pm_category d;
         Post.text := pm_text d; Post.isPublished := pm_isPublished d;
         Post.commentCount := Post.commentCount p |}
  | SetIsPublished b =>
      {| Post.author := Post.author p; Post.title := Post.title p;
         Post.timestamp := Post.timestamp p; Post.category := Post.category p;
         Post.text := Post.text p; Post.isPublished := b;
         Post.commentCount := Post.commentCount p |}
  | IncCommentCount n =>
      {| Post.author := Post.author p; Post.title := Post.title p;
         Post.timestamp := Post.timestamp p; Post.category := Post.category p;
         Post.text := Post.text p; Post.isPublished := Post.isPublished p;
         Post.commentCount := Post.commentCount p + n |}
  end.

Record CommentFilter := {
  by_post : option ObjectId;
  by_commenter : option ObjectId;
}.

Definition matches (f : CommentFilter) (c : Comment.t) : bool :=
  match by_post f with
  | Some i => String.eqb (Comment.post c) i
  | None => true
  end &&
  match by_commenter f with
  | Some i => String.eqb (Comment.commenter c) i
  | None => true
  end.

(** A projection string such as ['username -_id']: the paths to include and
    the paths excluded with a leading minus. *)
Record Select := { included : list string; excluded : list string }.

Definition selects (s : Select) (k : string) : bool :=
  if bool_decide (k ∈ excluded s) then false
  else bool_decide (k ∈ included s)
       || (String.eqb k "_id") || bool_decide (included s = []).

Definition project (s : Select) (doc : list (string * string))
  : list (string * string) :=
  List.filter (fun kv => selects s (fst kv)) doc.

Inductive Op :=
| PostFind
| PostFindById (id : ObjectId)
| PostSave (id : ObjectId)
| PostUpdateById (id : ObjectId) (u : PostUpdate)
| PostDeleteById (id : ObjectId)
| CommentFind (f : CommentFilter)
| CommentFindById (id : ObjectId)
| CommentSave (id : ObjectId)
| CommentUpdateById (id : ObjectId)
| CommentDeleteById (id : ObjectId)
| AuthorPopulate (id : ObjectId).

Inductive Exn :=
| BSONError
| CastError
| DuplicateKey.

(** How a persistence call settled: with a document (or a list of them),
    with [null], or by rejecting. *)
Inductive Settled :=
| WithDocument
| WithNull
| Rejected.

Definition settled {A} (o : option A) : Settled :=
  match o with Some _ => WithDocument | None => WithNull end.

(** A computation over the database: a thrown error or a value, the
    database afterwards, and the persistence calls issued, each with how
    it settled. *)
Definition M (A : Type) : Type := DB -> (Exn + A) * DB * list (Op * Settled).

#[global] Instance M_ret : MRet M := fun A a db => (inr a, db, []).

#[global] Instance M_bind : MBind M := fun A B k m db =>
  match m db with
  | (inl e, db1, t1) => (inl e, db1, t1)
  | (inr a, db1, t1) =>
      let '(r, db2, t2) := k a db1 in (r, db2, (t1 ++ t2)%list)
  end.

Definition throw {A} (e : Exn) : M A := fun db => (inl e, db, []).

(** Settles a started operation without letting its rejection escape, as
    the members of a [Promise.all] are settled. *)
Definition settle {A} (m : M A) : M (Exn + A) := fun db =>
  let '(r, db1, t1) := m db in (inr r, db1, t1).

Definition result {A} (r : Exn + A) : M A :=
  match r with inl e => throw e | inr a => mret a end.

Definition newer {A} (ts : A -> Z) (x y : string * A) : Prop :=
  ts (snd y) <= ts (snd x).

#[global] Instance newer_dec {A} (ts : A -> Z) x y : Decision (newer ts x y).
Proof. unfold newer. apply _. Defined.

(** [.sort({ timestamp: -1 })] *)
Definition sort_newest_first {A} (ts : A -> Z) (l : list (string * A))
  : list (string * A) :=
  merge_sort (newer ts) l.

Module Posts.

Definition find_sorted : M (list (ObjectId * Post.t)) := fun db =>
  (inr (sort_newest_first Post.timestamp (map_to_list (posts db))), db,
   [(PostFind, WithDocument)]).

Definition findById (id : ObjectId) : M (option Post.t) := fun db =>
  (inr (posts db !! id), db, [(PostFindById id, settled (posts db !! id))]).

Definition build (fresh : ObjectId) (d : PostModel) : ObjectId * Post.t :=
  (default fresh (pm_id d),
   {| Post.author := pm_author d; Post.title := pm_title d;
      Post.timestamp := pm_timestamp d; Post.category := pm_category d;
      Post.text := pm_text d; Post.isPublished := pm_isPublished d;
      Post.commentCount := 0 |}).

(** [doc.save()] of a new document: an insert, refused when the [_id] is
    taken. *)
Definition save (doc : ObjectId * Post.t) : M (ObjectId * Post.t) := fun db =>
  match posts db !! fst doc with
  | Some _ => (inl DuplicateKey, db, [(PostSave (fst doc), Rejected)])
  | None =>
      (inr doc,
       {| posts := <[fst doc := snd doc]> (posts db);
          comments := comments db; authors := authors db |},
       [(PostSave (fst doc), WithDocument)])
  end.

(** [findByIdAndUpdate] / [findOneAndUpdate({ _id })]; [ret_new] is the
    [{ new: true }] option. *)
Definition findByIdAndUpdate (id : ObjectId) (u : PostUpdate) (ret_new : bool)
  : M (option Post.t) := fun db =>
  match posts db !! id with
  | None => (inr None, db, [(PostUpdateById id u, WithNull)])
  | Some p =>
      let p' := applyPostUpdate u p in
      (inr (Some (if ret_new then p' else p)),
       {| posts := <[id := p']> (posts db);
          comments := comments db; authors := authors db |},
       [(PostUpdateById id u, WithDocument)])
  end.

(** [findOneAndUpdate({ _id: undefined }, u)]: no document has that id. *)
Definition findOneAndUpdate_undefined (u : PostUpdate) : M (option Post.t) :=
  fun db => (inr None, db, [(PostUpdateById EmptyString u, WithNull)]).

Definition findByIdAndDelete (id : ObjectId) : M (option Post.t) := fun db =>
  (inr (posts db !! id),
   {| posts := delete id (posts db);
      comments := comments db; authors := authors db |},
   [(PostDeleteById id, settled (posts db !! id))]).

End Posts.

Module Comments.

Definition populate_doc (sel : Select) (db : DB) (c : Comment.t)
  : PopulatedComment :=
  {| pc_commenter :=
       (fun a => project sel (Author.fields (Comment.commenter c) a))
         <$> (authors db !! Comment.commenter c);
     pc_post := Comment.post c;
     pc_timestamp := Comment.timestamp c;
     pc_text := Comment.text c;
     pc_replies := Comment.replies c |}.

(** [Comment.find(filter).populate('commenter', sel).sort({timestamp: -1})] *)
Definition find_populated_sorted (f : CommentFilter) (sel : Select)
  : M (list (ObjectId * PopulatedComment)) := fun db =>
  (inr (sort_newest_first pc_timestamp
          (List.map (fun kc => (fst kc, populate_doc sel db (snd kc)))
             (List.filter (fun kc => matches f (snd kc))
                (map_to_list (comments db))))),
   db, [(CommentFind f, WithDocument)]).

Definition findById (id : ObjectId) : M (option Comment.t) := fun db =>
  (inr (comments db !! id), db,
   [(CommentFindById id, settled (comments db !! id))]).

Definition save (doc : ObjectId * Comment.t) : M (ObjectId * Comment.t) :=
  fun db =>
  match comments db !! fst doc with
  | Some _ => (inl DuplicateKey, db, [(CommentSave (fst doc), Rejected)])
  | None =>
      (inr doc,
       {| posts := posts db;
          comments := <[fst doc := snd doc]> (comments db);
          authors := authors db |},
       [(CommentSave (fst doc), WithDocument)])
  end.

(** [doc.populate('commenter', sel)] *)
Definition populate (sel : Select) (doc : ObjectId * Comment.t)
  : M (ObjectId * PopulatedComment) := fun db =>
  (inr (fst doc, populate_doc sel db (snd doc)), db,
   [(AuthorPopulate (Comment.commenter (snd doc)), WithDocument)]).

(** [Comment.findByIdAndUpdate(id, doc, { new: true })] with a whole
    comment document as the update. *)
Definition findByIdAndUpdate (id : ObjectId) (c : Comment.t)
  : M (option Comment.t) := fun db =>
  match comments db !! id with
  | None => (inr None, db, [(CommentUpdateById id, WithNull)])
  | Some _ =>
      (inr (Some c),
       {| posts := posts db; comments := <[id := c]> (comments db);
          authors := authors db |},
       [(CommentUpdateById id, WithDocument)])
  end.

Definition findByIdAndDelete (id : ObjectId) : M (option Comment.t) :=
  fun db =>
  (inr (comments db !! id),
   {| posts := posts db; comments := delete id (comments db);
      authors := authors db |},
   [(CommentDeleteById id, settled (comments db !! id))]).

End Comments.

(** ** Requests, responses and what the controllers take from outside *)

(** What the controllers import and the sources do not define:
    [parseObjectId s] is [new Types.ObjectId(s)] on a string, [None] when it
    throws; [categories] is the list exported by [models/Post];
    [removeDangerousScriptTags] is the sanitizer the comment chains call. *)
Class Externals := {
  parseObjectId : string -> option ObjectId;
  categories : list string;
  removeDangerousScriptTags : string -> string;
}.

(** What a request draws from the clock and from the id generator:
    [new Date()] and the [n]-th ObjectId made without an argument. *)
Record Env := {
  now : Z;
  genId : nat -> ObjectId;
}.

Record Request := {
  req_params : gmap string string;
  req_query : gmap string string;
  req_body : gmap string string;
}.

Record ErrorMessage := {
  em_message : string;
  em_status : option Z;
}.

Inductive Json :=
| JMessage (m : ErrorMessage)
| JErrors (errors : list ExpressValidator.ValidationError)
| JPost (d : option (ObjectId * Post.t))
| JPosts (ds : list (ObjectId * Post.t))
| JComment (d : option (ObjectId * Comment.t))
| JPopulated (d : ObjectId * PopulatedComment)
| JPopulatedList (ds : list (ObjectId * PopulatedComment)).

Record Response := {
  status : Z;
  json : Json;
}.

Definition INVALID_ID : ErrorMessage :=
  {| em_message := "Failed to fetch - invalid ID format";
     em_status := Some 400 |}.

Definition INVALID_QUERY : ErrorMessage :=
  {| em_message := "Failed to fetch - invalid query";
     em_status := Some 400 |}.

Definition DOES_NOT_EXIST : ErrorMessage :=
  {| em_message := "Failed to fetch - no resource with that ID";
     em_status := Some 404 |}.

Definition DATABASE_UPDATE_ERROR : ErrorMessage :=
  {| em_message := "Error updating database"; em_status := None |}.

(** [res.status(st).json(j)]; [res.json(j)] is [respond 200 j]. *)
Definition respond (st : Z) (j : Json) : M Response :=
  mret {| status := st; json := j |}.

(** ['username -_id'] *)
Definition username_without_id : Select :=
  {| included := ["username"]; excluded := ["_id"] |}.

(** A JavaScript string is truthy unless it is empty. *)
Definition truthy (o : option string) : option string :=
  match o with
  | Some s => if String.eqb s "" then None else Some s
  | None => None
  end.

(** What the handlers read back from the validated [req.body].  After the
    chains of a field the value is a string, an array of paragraphs or a
    boolean as the handler expects; the remaining cases do not arise. *)
Definition asString (v : ExpressValidator.Value) : string :=
  match v with ExpressValidator.VString s => s | _ => "" end.

Definition asParagraphs (v : ExpressValidator.Value) : list string :=
  match v with
  | ExpressValidator.VArray l => l
  | ExpressValidator.VString s => [s]
  | _ => []
  end.

Definition asBoolean (v : ExpressValidator.Value) : bool :=
  match v with ExpressValidator.VBool b => b | _ => false end.

(** [x ?? y] on a field of the body *)
Definition orElse {A} (v : ExpressValidator.Value)
    (get : ExpressValidator.Value -> A) (existing : A) : A :=
  match v with
  | ExpressValidator.VUndefined => existing
  | _ => get v
  end.

(** A custom sanitizer declared on strings; the standard sanitizers that
    precede it in every chain leave a string. *)
Definition onString (f : string -> ExpressValidator.Value)
    (v : ExpressValidator.Value) : ExpressValidator.Value :=
  match v with
  | ExpressValidator.VString s => f s
  | other => other
  end.

Definition yesSanitizer (v : ExpressValidator.Value) : ExpressValidator.Value :=
  ExpressValidator.VBool
    (match v with
     | ExpressValidator.VString s => selectionIsYes s
     | _ => false
     end).

Section Controllers.
Context {X : Externals}.
Import ExpressValidator.

(** [Types.ObjectId.isValid(x)]: [false] for [undefined], otherwise whether
    constructing the ObjectId succeeds. *)
Definition ObjectId_isValid (x : option string) : bool :=
  match x with
  | Some s => match parseObjectId s with Some _ => true | None => false end
  | None => false
  end.

(** [new Types.ObjectId(x)]: a generated id for [undefined]. *)
Definition newObjectId (generated : ObjectId) (x : option string)
  : M ObjectId :=
  match x with
  | None => mret generated
  | Some s =>
      match parseObjectId s with
      | Some i => mret i
      | None => throw BSONError
      end
  end.

(** The cast Mongoose applies to a string used where an ObjectId is
    expected in a query. *)
Definition castObjectId (x : option string) : M ObjectId :=
  match x ≫= parseObjectId with
  | Some i => mret i
  | None => throw CastError
  end.

Definition castFilter (x : option string) : M (option ObjectId) :=
  match x with
  | None => mret None
  | Some _ => i ← castObjectId x; mret (Some i)
  end.

(** *** comments_controller *)

Definition getAllComments (req : Request) : M Response :=
  post ← castFilter (truthy (req_params req !! "postID"));
  commenter ← castFilter (truthy (req_params req !! "readerID"));
  allComments ← Comments.find_populated_sorted
    {| by_post := post; by_commenter := commenter |} username_without_id;
  respond 200 (JPopulatedList allComments).

Definition getSpecificComment (req : Request) : M Response :=
  if negb (ObjectId_isValid (req_params req !! "commentID")) then
    respond 400 (JMessage INVALID_ID)
  else
    id ← castObjectId (req_params req !! "commentID");
    comment ← Comments.findById id;
    match comment with
    | None => respond 404 (JMessage DOES_NOT_EXIST)
    | Some c => respond 200 (JComment (Some (id, c)))
    end.

Definition postNewComment_chains : list ValidationChain :=
  [ body "text" "Comment cannot be empty"
      |> trim |> notEmpty |> escape
      |> customSanitizer
           (onString (fun s => VString (removeDangerousScriptTags s))) ].

Definition postNewComment (env : Env) (req : Request) : M Response :=
  let '(reqBody, errors) := run_chains postNewComment_chains (req_body req) in
  match errors with
  | _ :: _ => respond 200 (JErrors errors)
  | [] =>
      commenter ← newObjectId (genId env 0) (req_query req !! "commenterID");
      post ← newObjectId (genId env 1) (req_params req !! "postID");
      let comment :=
        (genId env 2,
         {| Comment.commenter := commenter; Comment.post := post;
            Comment.timestamp := now env;
            Comment.text := asString (field reqBody "text");
            Comment.replies := [] |}) in
      saved ← settle (Comments.save comment);
      updatedPost ←
        match req_params req !! "postID" with
        | Some _ =>
            id ← castObjectId (req_params req !! "postID");
            Posts.findByIdAndUpdate id (IncCommentCount 1) true
        | None => Posts.findOneAndUpdate_undefined (IncCommentCount 1)
        end;
      savedComment ← result saved;
      populated ← Comments.populate username_without_id savedComment;
      match updatedPost with
      | Some _ => respond 201 (JPopulated populated)
      | None => respond 500 (JMessage DATABASE_UPDATE_ERROR)
      end
  end.

Definition editComment_chains : list ValidationChain :=
  [ body "text" "Comment cannot be empty"
      |> trim |> notEmpty
      |> customSanitizer
           (onString (fun s => VString (removeDangerousScriptTags s))) ].

Definition editComment (req : Request) : M Response :=
  let '(reqBody, errors) := run_chains editComment_chains (req_body req) in
  if negb (ObjectId_isValid (req_params req !! "commentID")) then
    respond 400 (JMessage INVALID_ID)
  else
    match errors with
    | _ :: _ => respond 200 (JErrors errors)
    | [] =>
        id ← castObjectId (req_params req !! "commentID");
        existingComment ← Comments.findById id;
        match existingComment with
        | None => respond 404 (JMessage DOES_NOT_EXIST)
        | Some existing =>
            let commentWithEdits :=
              {| Comment.commenter := Comment.commenter existing;
                 Comment.post := Comment.post existing;
                 Comment.timestamp := Comment.timestamp existing;
                 Comment.text := asString (field reqBody "text");
                 Comment.replies := Comment.replies existing |} in
            editedComment ← Comments.findByIdAndUpdate id commentWithEdits;
            respond 200 (JComment ((fun c => (id, c)) <$> editedComment))
        end
    end.

Definition deleteComment (req : Request) : M Response :=
  if negb (ObjectId_isValid (req_params req !! "commentID")) then
    respond 400 (JMessage INVALID_ID)
  else
    id ← castObjectId (req_params req !! "commentID");
    deletedComment ← Comments.findByIdAndDelete id;
    match deletedComment with
    | None => respond 404 (JMessage DOES_NOT_EXIST)
    | Some c =>
        _ ← Posts.findByIdAndUpdate (Comment.post c) (IncCommentCount (-1))
              false;
        respond 204 (JComment (Some (id, c)))
    end.

(** *** posts_controller *)

Definition getAllPosts (req : Request) : M Response :=
  allPosts ← Posts.find_sorted;
  respond 200 (JPosts allPosts).

Definition getSpecificPost (req : Request) : M Response :=
  if negb (ObjectId_isValid (req_params req !! "postID")) then
    respond 400 (JMessage INVALID_ID)
  else
    id ← castObjectId (req_params req !! "postID");
    post ← Posts.findById id;
    match post with
    | None => respond 404 (JMessage DOES_NOT_EXIST)
    | Some p => respond 200 (JPost (Some (id, p)))
    end.

Definition paragraphSanitizer : Value -> Value :=
  onString (fun s => VArray (convertToArrayOfParagraphs s)).

Definition postNewPost_chains : list ValidationChain :=
  [ body "title" "Title must not be empty" |> trim |> notEmpty |> escape;
    body "category" "Category must be one of the listed options"
      |> toLowerCase |> isIn categories;
    body "text" "Article cannot be empty"
      |> trim |> notEmpty |> escape |> customSanitizer paragraphSanitizer;
    body "isPublished" "Invalid value"
      |> trim |> toLowerCase |> escape |> customSanitizer yesSanitizer ].

(** The author every new post is given until authentication exists. *)
Definition placeholderAuthor : ObjectId := "65068c32be2fd5ade9800662".

Definition postNewPost (env : Env) (req : Request) : M Response :=
  let '(reqBody, errors) := run_chains postNewPost_chains (req_body req) in
  match errors with
  | _ :: _ => respond 200 (JErrors errors)
  | [] =>
      let post := Posts.build (genId env 0)
        {| pm_id := None;
           pm_author := placeholderAuthor;
           pm_title := asString (field reqBody "title");
           pm_timestamp := now env;
           pm_category := asString (field reqBody "category");
           pm_text := asParagraphs (field reqBody "text");
           pm_isPublished := asBoolean (field reqBody "isPublished") |} in
      saved ← Posts.save post;
      respond 200 (JPost (Some saved))
  end.

Definition editPost_chains : list ValidationChain :=
  [ body "title" "Title must not be empty"
      |> optional |> trim |> notEmpty |> escape;
    body "category" "Category must be one of the listed options"
      |> toLowerCase |> optional |> isIn categories;
    body "text" "Article cannot be empty"
      |> optional |> trim |> notEmpty |> escape
      |> customSanitizer paragraphSanitizer;
    body "isPublished" "Invalid value"
      |> optional |> trim |> toLowerCase |> escape
      |> customSanitizer yesSanitizer ].

Definition editPost (req : Request) : M Response :=
  let '(reqBody, errors) := run_chains editPost_chains (req_body req) in
  if negb (ObjectId_isValid (req_params req !! "postID")) then
    respond 400 (JMessage INVALID_ID)
  else
    match errors with
    | _ :: _ => respond 200 (JErrors errors)
    | [] =>
        id ← castObjectId (req_params req !! "postID");
        existingPost ← Posts.findById id;
        match existingPost with
        | None => respond 404 (JMessage DOES_NOT_EXIST)
        | Some existing =>
            let postWithEdits :=
              {| pm_id := Some id;
                 pm_author := Post.author existing;
                 pm_title :=
                   orElse (field reqBody "title") asString
                     (Post.title existing);
                 pm_timestamp := Post.timestamp existing;
                 pm_category :=
                   orElse (field reqBody "category") asString
                     (Post.category existing);
                 pm_text :=
                   orElse (field reqBody "text") asParagraphs
                     (Post.text existing);
                 pm_isPublished :=
                   orElse (field reqBody "isPublished") asBoolean
                     (Post.isPublished existing) |} in
            editedPost ←
              Posts.findByIdAndUpdate id (SetDocument postWithEdits) true;
            respond 200 (JPost ((fun p => (id, p)) <$> editedPost))
        end
    end.

Definition isPublishFlag (x : option string) : bool :=
  match x with
  | Some s => String.eqb s "true" || String.eqb s "false"
  | None => false
  end.

Definition publishPost (req : Request) : M Response :=
  if negb (ObjectId_isValid (req_params req !! "postID"))
     || negb (isPublishFlag (req_query req !! "publish"))
  then
    let message :=
      if negb (ObjectId_isValid (req_params req !! "postID"))
      then INVALID_ID else INVALID_QUERY in
    respond 400 (JMessage message)
  else
    let newPublishedStatus :=
      bool_decide (req_query req !! "publish" = Some "true") in
    id ← castObjectId (req_params req !! "postID");
    editedPost ←
      Posts.findByIdAndUpdate id (SetIsPublished newPublishedStatus) true;
    match editedPost with
    | None => respond 404 (JMessage DOES_NOT_EXIST)
    | Some p => respond 200 (JPost (Some (id, p)))
    end.

Definition deletePost (req : Request) : M Response :=
  if negb (ObjectId_isValid (req_params req !! "postID")) then
    respond 400 (JMessage INVALID_ID)
  else
    id ← castObjectId (req_params req !! "postID");
    deletedPost ← Posts.findByIdAndDelete id;
    match deletedPost with
    | None => respond 404 (JMessage DOES_NOT_EXIST)
    | Some p => respond 200 (JPost (Some (id, p)))
    end.

End Controllers.

(** *** The routes *)

Inductive Endpoint :=
| GetAllPosts | GetSpecificPost | PostNewPost | EditPost | PublishPost
| DeletePost
| GetAllComments | GetSpecificComment | PostNewComment | EditComment
| DeleteComment.

Definition handle `{Externals} (e : Endpoint) (env : Env) (req : Request)
  : M Response :=
  match e with
  | GetAllPosts => getAllPosts req
  | GetSpecificPost => getSpecificPost req
  | PostNewPost => postNewPost env req
  | EditPost => editPost req
  | PublishPost => publishPost req
  | DeletePost => deletePost req
  | GetAllComments => getAllComments req
  | GetSpecificComment => getSpecificComment req
  | PostNewComment => postNewComment env req
  | EditComment => editComment req
  | DeleteComment => deleteComment req
  end.

(** The route parameter that carries the identifier of an endpoint. *)
Definition idParam (e : Endpoint) : option string :=
  match e with
  | GetSpecificPost | EditPost | PublishPost | DeletePost => Some "postID"
  | PostNewComment => Some "postID"
  | GetSpecificComment | EditComment | DeleteComment => Some "commentID"
  | GetAllPosts | PostNewPost | GetAllComments => None
  end.

Definition response {A} (r : (Exn + A) * DB * list (Op * Settled))
  : Exn + A := r.1.1.
Definition database {A} (r : (Exn + A) * DB * list (Op * Settled))
  : DB := r.1.2.
Definition trace {A} (r : (Exn + A) * DB * list (Op * Settled))
  : list (Op * Settled) := r.2.

(** ** A concrete setting for the examples *)

Module Sample.

Definition is_hex (c : ascii) : bool :=
  let n := JsString.code c in
  ((48 <=? n) && (n <=? 57) || (65 <=? n) && (n <=? 70)
   || (97 <=? n) && (n <=? 102))%N.

Definition hex_digit (n : N) : ascii :=
  if (n <? 10)%N then ascii_of_N (48 + n) else ascii_of_N (87 + n).

Definition hex_of_char (c : ascii) : string :=
  let n := JsString.code c in
  String (hex_digit (n / 16)) (String (hex_digit (n mod 16)) EmptyString).

Definition is_ascii (c : ascii) : bool := (JsString.code c <? 128)%N.

(** The BSON rule for strings: 24 hexadecimal digits, or 12 ASCII
    characters taken as the 12 bytes of the id. *)
Definition parseObjectId (s : string) : option ObjectId :=
  if (String.length s =? 24)%nat && JsString.forallb is_hex s
  then Some (JsString.toLowerCase s)
  else if (String.length s =? 12)%nat && JsString.forallb is_ascii s
  then Some (JsString.concat_map hex_of_char s)
  else None.

Fixpoint drop (n : nat) (s : string) : string :=
  match n, s with
  | S m, String _ r => drop m r
  | _, _ => s
  end.

Fixpoint after (pat s : string) : option string :=
  if String.prefix pat s then Some (drop (String.length pat) s)
  else match s with
       | EmptyString => None
       | String _ r => after pat r
       end.

Fixpoint strip_scripts (fuel : nat) (s : string) : string :=
  match fuel, s with
  | S n, String c r =>
      if String.prefix "<script>" s then
        match after "</script>" (drop 8 s) with
        | Some rest => strip_scripts n rest
        | None => String c (strip_scripts n r)
        end
      else String c (strip_scripts n r)
  | _, _ => s
  end.

(** Modelled from the spec: [removeDangerousScriptTags] is imported from
    [posts_controller] but its definition is not part of the sources.  The
    spec has it strip the substrings that match a [<script>...</script>]
    pattern; text without such a tag passes unchanged. *)
Definition removeDangerousScriptTags (s : string) : string :=
  strip_scripts (String.length s) s.

#[export] Instance externals : Externals :=
  Build_Externals parseObjectId ["technology"; "travel"; "food"; "other"]
    removeDangerousScriptTags.

Definition env : Env :=
  {| now := 1700000000000;
     genId := fun n =>
       match n with
       | O => "aaaaaaaaaaaaaaaaaaaaaaa0"
       | 1%nat => "aaaaaaaaaaaaaaaaaaaaaaa1"
       | _ => "aaaaaaaaaaaaaaaaaaaaaaa2"
       end |}.

Definition postA : ObjectId := "0123456789abcdef01234567".
Definition commentA : ObjectId := "c0ffee0123456789abcdef01".
Definition alice : ObjectId := "a11ce00000000000000000a1".

Definition db : DB :=
  {| posts :=
       {[ postA :=
            {| Post.author := placeholderAuthor; Post.title := "Hello";
               Post.timestamp := 1600000000000; Post.category := "travel";
               Post.text := ["First"; "Second"]; Post.isPublished := false;
               Post.commentCount := 1 |} ]};
     comments :=
       {[ commentA :=
            {| Comment.commenter := alice; Comment.post := postA;
               Comment.timestamp := 1650000000000; Comment.text := "Nice";
               Comment.replies := [] |} ]};
     authors := {[ alice := {| Author.name := "alice" |} ]} |}.

Definition request (ps qs bs : list (string * string)) : Request :=
  {| req_params := list_to_map ps; req_query := list_to_map qs;
     req_body := list_to_map bs |}.

End Sample.

(** ** The paragraph sanitizer in the words of its description *)

Module ParagraphSpec.
Import JsString.

(** Collapsing runs of line feeds, said directly: a line feed that comes
    right after a line feed is dropped. *)
Fixpoint squeeze (after_LF : bool) (s : string) : string :=
  match s with
  | EmptyString => EmptyString
  | String c r =>
      if is_LF c then
        if after_LF then squeeze true r else String c (squeeze true r)
      else String c (squeeze false r)
  end.

(** Whether two line feeds stand next to each other somewhere in [s]. *)
Fixpoint adjacent_LF (s : string) : bool :=
  match s with
  | String c ((String d _) as r) => is_LF c && is_LF d || adjacent_LF r
  | _ => false
  end.

Definition starts_with_LF (s : string) : bool :=
  match s with String c _ => is_LF c | EmptyString => false end.

End ParagraphSpec.

(** ** Vocabulary of the statements *)

Section Vocabulary.
Import ExpressValidator.

(** What one chain makes of the value of its field, and the errors it
    reports for it. *)
Definition chain_value (c : ValidationChain) (v : Value) : Value :=
  if isOptional c && isUndefined v then v
  else (run_stack c (stack c) v).1.

Definition chain_errors (c : ValidationChain) (v : Value)
  : list ValidationError :=
  if isOptional c && isUndefined v then []
  else (run_stack c (stack c) v).2.

Definition raw_value (raw : gmap string string) (k : string) : Value :=
  match raw !! k with Some s => VString s | None => VUndefined end.

Definition run_from (cs : list ValidationChain)
    (st : gmap string Value * list ValidationError) :=
  fold_left (fun st c => run_chain c st) cs st.

(** The string a chain without [optional] starts from: an absent field
    reads as the empty string. *)
Definition input (raw : gmap string string) (k : string) : string :=
  default EmptyString (raw !! k).

Definition same_but_isPublished (p p' : Post.t) : Prop :=
  Post.author p' = Post.author p /\ Post.title p' = Post.title p /\
  Post.timestamp p' = Post.timestamp p /\
  Post.category p' = Post.category p /\ Post.text p' = Post.text p /\
  Post.commentCount p' = Post.commentCount p.

Definition same_but_commentCount (p p' : Post.t) : Prop :=
  Post.author p' = Post.author p /\ Post.title p' = Post.title p /\
  Post.timestamp p' = Post.timestamp p /\
  Post.category p' = Post.category p /\ Post.text p' = Post.text p /\
  Post.isPublished p' = Post.isPublished p.

Definition same_but_text (c c' : Comment.t) : Prop :=
  Comment.commenter c' = Comment.commenter c /\
  Comment.post c' = Comment.post c /\
  Comment.timestamp c' = Comment.timestamp c /\
  Comment.replies c' = Comment.replies c.

(** The filter of [getAllComments]: a parameter that is absent or empty
    adds no condition. *)
Definition searchFilter {X : Externals} (req : Request) (f : CommentFilter)
  : Prop :=
  truthy (req_params req !! "postID") ≫= parseObjectId = by_post f /\
  (by_post f = None -> truthy (req_params req !! "postID") = None) /\
  truthy (req_params req !! "readerID") ≫= parseObjectId = by_commenter f /\
  (by_commenter f = None -> truthy (req_params req !! "readerID") = None).

(** No post that is there before and after has a different counter. *)
Definition counts_kept (m m' : gmap string Post.t) : Prop :=
  forall i p p', m !! i = Some p -> m' !! i = Some p' ->
    Post.commentCount p' = Post.commentCount p.

Definition message_response (st : Z) (m : ErrorMessage) : Response :=
  {| status := st; json := JMessage m |}.

End Vocabulary.

(** * Properties *)

(** ** Strings *)

Section StringFacts.
Import JsString ParagraphSpec.

Lemma is_LF_true c : is_LF c = true -> c = LF.
Proof. unfold is_LF. intros E. now apply Ascii.eqb_eq in E. Qed.

Lemma existsb_filter_negb p s :
  existsb p (filter (fun c => negb (p c)) s) = false.
Proof.
  induction s as [|c r IH]; simpl; [done|].
  destruct (p c) eqn:E; simpl; [done|]. now rewrite E.
Qed.

Lemma collapse_squeeze s :
  collapse_LF s = squeeze false s /\ in_run s = squeeze true s.
Proof.
  induction s as [|c r [IH1 IH2]]; simpl; [done|].
  destruct (is_LF c) eqn:E.
  - apply is_LF_true in E as ->. now rewrite IH2.
  - now rewrite IH1.
Qed.

Lemma squeeze_no_adjacent s b :
  adjacent_LF (squeeze b s) = false /\
  (b = true -> starts_with_LF (squeeze b s) = false).
Proof.
  revert b. induction s as [|c r IH]; intros b; simpl; [done|].
  destruct (is_LF c) eqn:E.
  - destruct (IH true) as [IHa IHs]. specialize (IHs eq_refl).
    destruct b; [done|]. split; [|done].
    simpl. destruct (squeeze true r) as [|d r'] eqn:Er; [done|].
    simpl in IHs. rewrite IHs, IHa. now rewrite andb_false_r.
  - destruct (IH false) as [IHa _]. split; [|simpl; now rewrite E].
    simpl. destruct (squeeze false r) as [|d r'] eqn:Er; [done|].
    now rewrite E, IHa.
Qed.

Lemma split_LF_cons s : exists p ps, split_LF s = p :: ps.
Proof.
  induction s as [|c r (p & ps & IH)]; simpl; [by eauto|].
  destruct (is_LF c); [by eauto|]. rewrite IH. eauto.
Qed.

Lemma join_cons sep p q l :
  join sep (p :: q :: l) = p ++ sep ++ join sep (q :: l).
Proof. reflexivity. Qed.

Lemma join_split_LF s : join (String LF EmptyString) (split_LF s) = s.
Proof.
  induction s as [|c r IH]; [done|].
  cbn [split_LF].
  destruct (split_LF_cons r) as (p & ps & Er). rewrite Er in *.
  destruct (is_LF c) eqn:E.
  - apply is_LF_true in E as ->. rewrite join_cons, IH. reflexivity.
  - destruct ps as [|q ps].
    + cbn in *. now rewrite IH.
    + rewrite !join_cons in *. rewrite <- IH. reflexivity.
Qed.

Lemma split_LF_pieces s :
  Forall (fun p => existsb is_LF p = false) (split_LF s).
Proof.
  induction s as [|c r IH]; simpl.
  - by repeat constructor.
  - destruct (is_LF c) eqn:E; [by constructor|].
    destruct (split_LF r) as [|p ps];
      [by repeat constructor; simpl; rewrite E|].
    inversion IH; subst. constructor; [|done]. simpl. now rewrite E.
Qed.

Lemma existsb_CR_squeeze s b :
  existsb is_CR s = false -> existsb is_CR (squeeze b s) = false.
Proof.
  revert b. induction s as [|c r IH]; intros b; simpl; [done|].
  intros E. apply orb_false_iff in E as [Ec Er].
  destruct (is_LF c), b; simpl; rewrite ?Ec; simpl; auto.
Qed.

Lemma existsb_app p s t :
  existsb p (s ++ t) = existsb p s || existsb p t.
Proof. induction s as [|c r IH]; simpl; [done|]. now rewrite IH, orb_assoc. Qed.

Lemma existsb_join_pieces p sep l :
  existsb p (join sep l) = false ->
  Forall (fun q => existsb p q = false) l.
Proof.
  induction l as [|q [|q' l] IH]; simpl; intros E.
  - constructor.
  - by repeat constructor.
  - rewrite !existsb_app in E.
    apply orb_false_iff in E as [E1 E2].
    apply orb_false_iff in E2 as [_ E2]. constructor; auto.
Qed.

Example trim_example : Validator.trim "  Yes please  " = "Yes please".
Proof. reflexivity. Qed.

Example escape_example :
  Validator.escape "a<b & 'c'" = "a&lt;b &amp; &#x27;c&#x27;".
Proof. reflexivity. Qed.

Example toLowerCase_example : toLowerCase "Fiction" = "fiction".
Proof. reflexivity. Qed.

End StringFacts.

Section Paragraphs.
Import JsString ParagraphSpec.

Lemma adjacent_LF_cons c r :
  adjacent_LF (String c r) = is_LF c && starts_with_LF r || adjacent_LF r.
Proof. destruct r; simpl; [now rewrite andb_false_r|done]. Qed.

Lemma split_LF_empty_head r q ps :
  split_LF r = EmptyString :: q :: ps -> starts_with_LF r = true.
Proof.
  destruct r as [|d r']; simpl; [done|].
  destruct (is_LF d); [done|].
  destruct (split_LF r'); intros E; inversion E.
Qed.

Lemma split_LF_interior s :
  adjacent_LF s = false ->
  Forall (fun p => p <> EmptyString) (removelast (tail (split_LF s))).
Proof.
  induction s as [|c r IH]; [by constructor|].
  rewrite adjacent_LF_cons. intros E.
  apply orb_false_iff in E as [E1 E2]. specialize (IH E2).
  cbn [split_LF].
  destruct (split_LF_cons r) as (p & ps & Er). rewrite Er in *.
  destruct (is_LF c) eqn:Ec; [|done].
  cbn [tail] in *. destruct ps as [|q ps]; [by constructor|].
  change (removelast (p :: q :: ps)) with (p :: removelast (q :: ps)).
  constructor; [|done].
  intros ->. apply split_LF_empty_head in Er. now rewrite Er in E1.
Qed.

(** C7. The paragraph sanitizer removes every carriage return, turns every
    run of line feeds into one line feed and splits at the line feeds: the
    cleaned text holds no carriage return, the collapsed text is the
    cleaned text with each line feed that follows a line feed dropped and
    so has no two line feeds side by side, joining the paragraphs with a
    line feed gives back the collapsed text, no paragraph holds a line
    feed or a carriage return, only the first and the last paragraph can
    be empty, and "a\r\n\n\nb\nc" becomes ["a"; "b"; "c"]. *)
Theorem convertToArrayOfParagraphs_correct (text : string) :
  let cleaned := remove_CR text in
  let collapsed := collapse_LF cleaned in
  let paragraphs := convertToArrayOfParagraphs text in
  cleaned = filter (fun c => negb (is_CR c)) text /\
  existsb is_CR cleaned = false /\
  collapsed = squeeze false cleaned /\
  adjacent_LF collapsed = false /\
  join (String LF EmptyString) paragraphs = collapsed /\
  Forall (fun p => existsb is_LF p = false /\ existsb is_CR p = false)
    paragraphs /\
  Forall (fun p => p <> EmptyString) (removelast (tail paragraphs)) /\
  convertToArrayOfParagraphs
    (String "a" (String CR (String LF (String LF (String LF
      (String "b" (String LF "c")))))))
  = ["a"; "b"; "c"].
Proof.
  intros cleaned collapsed paragraphs.
  assert (Hcr : existsb is_CR cleaned = false)
    by apply existsb_filter_negb.
  assert (Hsq : collapsed = squeeze false cleaned)
    by apply collapse_squeeze.
  assert (Hadj : adjacent_LF collapsed = false).
  { rewrite Hsq. apply squeeze_no_adjacent. }
  assert (Hjoin : join (String LF EmptyString) paragraphs = collapsed)
    by apply join_split_LF.
  repeat split; try done.
  - apply Forall_and. split; [apply split_LF_pieces|].
    apply existsb_join_pieces with (sep := String LF EmptyString).
    rewrite Hjoin, Hsq. now apply existsb_CR_squeeze.
  - now apply split_LF_interior.
Qed.

End Paragraphs.

(** ** Validation chains *)

Section Chains.
Import ExpressValidator.

Lemma field_raw raw k : field (VString <$> raw) k = raw_value raw k.
Proof.
  unfold field, raw_value. rewrite lookup_fmap. now destruct (raw !! k).
Qed.

Lemma run_chain_fst c b errs k :
  field (run_chain c (b, errs)).1 k =
  if decide (path c = k) then chain_value c (field b k) else field b k.
Proof.
  unfold run_chain, chain_value.
  destruct (decide (path c = k)) as [<-|Hne].
  - destruct (isOptional c && isUndefined (field b (path c))); [done|].
    destruct (run_stack c (stack c) (field b (path c))) as [v' es].
    simpl. destruct (decide (v' = field b (path c))) as [->|]; [done|].
    unfold field. now rewrite lookup_insert_eq.
  - destruct (isOptional c && isUndefined (field b (path c))); [done|].
    destruct (run_stack c (stack c) (field b (path c))) as [v' es].
    simpl. destruct (decide (v' = field b (path c))); [done|].
    unfold field. now rewrite lookup_insert_ne.
Qed.

Lemma run_chain_snd c b errs :
  (run_chain c (b, errs)).2 =
  (errs ++ chain_errors c (field b (path c)))%list.
Proof.
  unfold run_chain, chain_errors.
  destruct (isOptional c && isUndefined (field b (path c)));
    [now rewrite app_nil_r|].
  now destruct (run_stack c (stack c) (field b (path c))).
Qed.

Lemma flat_map_agree {A B} (f g : A -> list B) (l : list A) :
  (forall a, a ∈ l -> f a = g a) -> flat_map f l = flat_map g l.
Proof.
  induction l as [|a l IH]; intros Hfg; [done|].
  simpl. rewrite Hfg by apply list_elem_of_here.
  rewrite IH; [done|]. intros b Hb. apply Hfg. now apply list_elem_of_further.
Qed.

Lemma run_from_cons c cs st :
  run_from (c :: cs) st = run_from cs (run_chain c st).
Proof. reflexivity. Qed.

Lemma run_from_other cs b errs k :
  k ∉ path <$> cs -> field (run_from cs (b, errs)).1 k = field b k.
Proof.
  revert b errs. induction cs as [|c cs IH]; intros b errs Hk; [done|].
  rewrite fmap_cons, not_elem_of_cons in Hk. destruct Hk as [Hne Hk].
  rewrite run_from_cons. destruct (run_chain c (b, errs)) as [b1 e1] eqn:E.
  rewrite IH by done.
  change b1 with (b1, e1).1. rewrite <- E, run_chain_fst.
  destruct (decide (path c = k)); congruence.
Qed.

Lemma run_from_field cs b errs c :
  NoDup (path <$> cs) -> c ∈ cs ->
  field (run_from cs (b, errs)).1 (path c) = chain_value c (field b (path c)).
Proof.
  revert b errs. induction cs as [|c0 cs IH]; intros b errs Hnd Hin.
  - by apply elem_of_nil in Hin.
  - rewrite fmap_cons in Hnd. apply NoDup_cons in Hnd as [Hfresh Hnd].
    rewrite run_from_cons.
    destruct (run_chain c0 (b, errs)) as [b1 e1] eqn:E.
    assert (Hb1 : forall k, field b1 k =
              if decide (path c0 = k) then chain_value c0 (field b k)
              else field b k).
    { intros k. change b1 with (b1, e1).1. now rewrite <- E, run_chain_fst. }
    apply elem_of_cons in Hin as [->|Hin].
    + rewrite run_from_other by done. rewrite Hb1.
      now destruct (decide (path c0 = path c0)).
    + rewrite IH by done. rewrite Hb1.
      destruct (decide (path c0 = path c)) as [Heq|]; [|done].
      exfalso. apply Hfresh. rewrite Heq. now apply list_elem_of_fmap_2.
Qed.

Lemma run_from_errors cs b errs :
  NoDup (path <$> cs) ->
  (run_from cs (b, errs)).2 =
  (errs ++ flat_map (fun c => chain_errors c (field b (path c))) cs)%list.
Proof.
  revert b errs. induction cs as [|c0 cs IH]; intros b errs Hnd.
  - simpl. now rewrite app_nil_r.
  - rewrite fmap_cons in Hnd. apply NoDup_cons in Hnd as [Hfresh Hnd].
    rewrite run_from_cons. cbn [flat_map].
    destruct (run_chain c0 (b, errs)) as [b1 e1] eqn:E.
    rewrite IH by done.
    assert (He1 : e1 = (errs ++ chain_errors c0 (field b (path c0)))%list).
    { change e1 with (b1, e1).2. now rewrite <- E, run_chain_snd. }
    rewrite He1, <- app_assoc. f_equal. f_equal.
    apply flat_map_agree. intros c Hc. f_equal.
    change b1 with (b1, e1).1. rewrite <- E, run_chain_fst.
    destruct (decide (path c0 = path c)) as [Heq|]; [|done].
    exfalso. apply Hfresh. rewrite Heq. now apply list_elem_of_fmap_2.
Qed.

(** The validated body and the errors of a list of chains on distinct
    fields, field by field. *)
Lemma run_chains_field cs raw c :
  NoDup (path <$> cs) -> c ∈ cs ->
  field (run_chains cs raw).1 (path c) =
  chain_value c (raw_value raw (path c)).
Proof.
  intros Hnd Hin. unfold run_chains.
  change (fold_left _ cs ?st) with (run_from cs st).
  now rewrite run_from_field, field_raw.
Qed.

Lemma run_chains_errors cs raw :
  NoDup (path <$> cs) ->
  (run_chains cs raw).2 =
  flat_map (fun c => chain_errors c (raw_value raw (path c))) cs.
Proof.
  intros Hnd. unfold run_chains.
  change (fold_left _ cs ?st) with (run_from cs st).
  rewrite run_from_errors by done. simpl.
  apply flat_map_agree. intros c _. now rewrite field_raw.
Qed.

Lemma run_chains_untouched cs raw k :
  k ∉ path <$> cs -> field (run_chains cs raw).1 k = raw_value raw k.
Proof.
  intros Hk. unfold run_chains.
  change (fold_left _ cs ?st) with (run_from cs st).
  now rewrite run_from_other, field_raw.
Qed.

End Chains.

(** ** Identifiers *)

Section Identifiers.
Context {X : Externals}.

Lemma isValid_true x :
  ObjectId_isValid x = true <-> exists i, x ≫= parseObjectId = Some i.
Proof.
  unfold ObjectId_isValid. destruct x as [s|]; simpl.
  - destruct (parseObjectId s); split; intros Hx; eauto; try done.
    now destruct Hx.
  - split; intros Hx; [done|]. now destruct Hx.
Qed.

Lemma isValid_false x :
  ObjectId_isValid x = false <-> x ≫= parseObjectId = None.
Proof.
  unfold ObjectId_isValid. destruct x as [s|]; simpl; [|done].
  destruct (parseObjectId s); split; intros Hx; done.
Qed.

Lemma parsed_isValid x i :
  x ≫= parseObjectId = Some i -> ObjectId_isValid x = true.
Proof. intros E. apply isValid_true. eauto. Qed.

Lemma castObjectId_parsed x i :
  x ≫= parseObjectId = Some i -> castObjectId x = mret i.
Proof. unfold castObjectId. now intros ->. Qed.

End Identifiers.

Ltac run_handler :=
  unfold response, database, trace, message_response;
  repeat (cbn [fst snd negb orb andb app posts comments authors];
          unfold mbind, M_bind, mret, M_ret, respond, throw, settle, result,
            Posts.findById, Posts.findByIdAndUpdate, Posts.findByIdAndDelete,
            Posts.save, Posts.find_sorted, Posts.findOneAndUpdate_undefined,
            Comments.findById, Comments.findByIdAndUpdate,
            Comments.findByIdAndDelete, Comments.save, Comments.populate,
            Comments.find_populated_sorted).

(** Takes apart hypotheses about membership in an explicit trace. *)
Ltac tidy :=
  repeat (simplify_eq/=;
          match goal with
          | H : _ ∈ _ :: _ |- _ => apply elem_of_cons in H as [H|H]
          | H : _ ∈ [] |- _ => apply elem_of_nil in H; destruct H
          | H : exists _, _ |- _ => destruct H as [? H]
          | H : _ /\ _ |- _ => destruct H as [? ?]
          | H : _ \/ _ |- _ => destruct H as [H|H]
          end);
  simplify_eq/=; try lia.

Ltac in_trace :=
  eexists; repeat first [apply list_elem_of_here | apply list_elem_of_further].

(** ** Publishing *)

Section Publish.
Context {X : Externals}.

Lemma isPublishFlag_true x :
  isPublishFlag x = true <-> x = Some "true" \/ x = Some "false".
Proof.
  unfold isPublishFlag. destruct x as [s|].
  - rewrite orb_true_iff, !String.eqb_eq.
    split; intros [Hx|Hx]; [left|right|left|right]; congruence.
  - split; intros Hx; [done|]. now destruct Hx.
Qed.

(** C5. [publishPost] answers 400 with [INVALID_ID] whenever the id is
    malformed, whatever the publish flag; 400 with [INVALID_QUERY] when the
    id is well formed and the flag is neither "true" nor "false"; 404 when
    both are valid and no post has the id; and otherwise it sets
    [isPublished] to the flag, leaves every other field of the post and
    everything else in the database as it was, and returns the updated
    post.  In the two 400 cases no persistence call is made. *)
Theorem publishPost_correct (req : Request) (db : DB) :
  let id := req_params req !! "postID" in
  let flag := req_query req !! "publish" in
  let r := publishPost req db in
  (ObjectId_isValid id = false ->
   r = (inr (message_response 400 INVALID_ID), db, [])) /\
  (ObjectId_isValid id = true ->
   flag <> Some "true" -> flag <> Some "false" ->
   r = (inr (message_response 400 INVALID_QUERY), db, [])) /\
  (forall (i : ObjectId) (b : bool),
     id ≫= parseObjectId = Some i ->
     flag = Some (if b then "true" else "false") ->
     match posts db !! i with
     | None =>
         response r = inr (message_response 404 DOES_NOT_EXIST) /\
         database r = db
     | Some p =>
         exists p',
           response r = inr {| status := 200; json := JPost (Some (i, p')) |} /\
           Post.isPublished p' = b /\
           same_but_isPublished p p' /\
           posts (database r) = <[i := p']> (posts db) /\
           comments (database r) = comments db /\
           authors (database r) = authors db
     end).
Proof.
  intros id flag r. subst r. unfold publishPost. fold id flag.
  repeat split.
  - intros ->. reflexivity.
  - intros -> Ht Hf. simpl.
    destruct (isPublishFlag flag) eqn:E; [|done].
    apply isPublishFlag_true in E as [?|?]; done.
  - intros i b Hi Hflag.
    rewrite (parsed_isValid _ _ Hi).
    assert (Hf : isPublishFlag flag = true).
    { apply isPublishFlag_true. rewrite Hflag. destruct b; auto. }
    rewrite Hf. simpl. rewrite (castObjectId_parsed _ _ Hi).
    assert (Hb : bool_decide (flag = Some "true") = b).
    { rewrite Hflag. now destruct b. }
    rewrite Hb. run_handler.
    destruct (posts db !! i) as [p|] eqn:Ep.
    + run_handler. eexists. split; [reflexivity|].
      repeat split; reflexivity.
    + run_handler. split; [reflexivity|]. now destruct db.
Qed.

End Publish.

(** ** The chains of each handler *)

Section HandlerChains.
Context {X : Externals}.
Import ExpressValidator.

Lemma isEmpty_false s : Validator.isEmpty s = false <-> s <> EmptyString.
Proof. unfold Validator.isEmpty. apply String.eqb_neq. Qed.

Lemma isEmpty_true s : Validator.isEmpty s = true <-> s = EmptyString.
Proof. unfold Validator.isEmpty. apply String.eqb_eq. Qed.

#[local] Opaque Validator.trim Validator.escape Validator.isEmpty
  Validator.isIn JsString.toLowerCase convertToArrayOfParagraphs
  selectionIsYes.

Lemma run_chains_lookup cs raw n c :
  NoDup (path <$> cs) -> cs !! n = Some c ->
  field (run_chains cs raw).1 (path c) =
  chain_value c (raw_value raw (path c)).
Proof.
  intros Hnd Hc. apply run_chains_field; [done|].
  by eapply list_elem_of_lookup_2.
Qed.

Lemma postNewPost_paths : NoDup (path <$> postNewPost_chains).
Proof. apply (bool_decide_unpack _). reflexivity. Qed.

Lemma editPost_paths : NoDup (path <$> editPost_chains).
Proof. apply (bool_decide_unpack _). reflexivity. Qed.

Lemma postNewComment_paths : NoDup (path <$> postNewComment_chains).
Proof. apply (bool_decide_unpack _). reflexivity. Qed.

Lemma editComment_paths : NoDup (path <$> editComment_chains).
Proof. apply (bool_decide_unpack _). reflexivity. Qed.

Ltac chain_at n paths :=
  etrans; [exact (run_chains_lookup _ _ n _ paths eq_refl)|];
  unfold chain_value, raw_value, input; cbn;
  repeat match goal with |- context [?raw !! ?k] => destruct (raw !! k) end;
  try reflexivity.

Ltac chain_errors paths :=
  rewrite run_chains_errors by apply paths;
  rewrite <- ?isEmpty_false;
  unfold postNewPost_chains, editPost_chains, postNewComment_chains,
    editComment_chains, chain_errors, raw_value, input; cbn;
  repeat match goal with |- context [?raw !! ?k] => destruct (raw !! k) end;
  cbn;
  repeat match goal with
         | |- context [Validator.isEmpty ?s] => destruct (Validator.isEmpty s)
         | |- context [Validator.isIn ?l ?s] => destruct (Validator.isIn l s)
         end;
  cbn.

Lemma postNewPost_body raw :
  let b := (run_chains postNewPost_chains raw).1 in
  field b "title"
  = VString (Validator.escape (Validator.trim (input raw "title"))) /\
  field b "category"
  = match raw !! "category" with
    | Some c => VString (JsString.toLowerCase c)
    | None => VUndefined
    end /\
  field b "text"
  = VArray (convertToArrayOfParagraphs
              (Validator.escape (Validator.trim (input raw "text")))) /\
  field b "isPublished"
  = VBool (selectionIsYes
             (Validator.escape
                (JsString.toLowerCase
                   (Validator.trim (input raw "isPublished"))))).
Proof.
  intros b. subst b. repeat split.
  - chain_at 0%nat postNewPost_paths.
  - chain_at 1%nat postNewPost_paths.
  - chain_at 2%nat postNewPost_paths.
  - chain_at 3%nat postNewPost_paths.
Qed.

Lemma postNewPost_errors raw :
  (run_chains postNewPost_chains raw).2 = [] <->
  Validator.trim (input raw "title") <> EmptyString /\
  Validator.isIn categories
    match raw !! "category" with
    | Some c => JsString.toLowerCase c
    | None => EmptyString
    end = true /\
  Validator.trim (input raw "text") <> EmptyString.
Proof.
  chain_errors postNewPost_paths.
  all: split; [intros E; try done | intros (? & ? & ?); try done].
Qed.

Lemma postNewPost_title_error raw :
  Validator.trim (input raw "title") = EmptyString ->
  exists v,
    {| err_value := v; err_msg := "Title must not be empty";
       err_path := "title" |} ∈ (run_chains postNewPost_chains raw).2.
Proof.
  intros E. apply isEmpty_true in E. revert E.
  rewrite run_chains_errors by apply postNewPost_paths.
  unfold postNewPost_chains, chain_errors, raw_value, input. cbn.
  destruct (raw !! "title"); cbn; intros ->; cbn;
    eexists; apply list_elem_of_here.
Qed.

Lemma editPost_body raw :
  let b := (run_chains editPost_chains raw).1 in
  field b "title"
  = match raw !! "title" with
    | Some t => VString (Validator.escape (Validator.trim t))
    | None => VUndefined
    end /\
  field b "category"
  = match raw !! "category" with
    | Some c => VString (JsString.toLowerCase c)
    | None => VUndefined
    end /\
  field b "text"
  = match raw !! "text" with
    | Some t =>
        VArray (convertToArrayOfParagraphs
                  (Validator.escape (Validator.trim t)))
    | None => VUndefined
    end /\
  field b "isPublished"
  = match raw !! "isPublished" with
    | Some v =>
        VBool (selectionIsYes
                 (Validator.escape
                    (JsString.toLowerCase (Validator.trim v))))
    | None => VUndefined
    end.
Proof.
  intros b. subst b. repeat split.
  - chain_at 0%nat editPost_paths.
  - chain_at 1%nat editPost_paths.
  - chain_at 2%nat editPost_paths.
  - chain_at 3%nat editPost_paths.
Qed.

Lemma editPost_errors raw :
  (run_chains editPost_chains raw).2 = [] <->
  (forall t, raw !! "title" = Some t -> Validator.trim t <> EmptyString) /\
  (forall c, raw !! "category" = Some c ->
     Validator.isIn categories (JsString.toLowerCase c) = true) /\
  (forall t, raw !! "text" = Some t -> Validator.trim t <> EmptyString).
Proof.
  rewrite run_chains_errors by apply editPost_paths.
  unfold editPost_chains, chain_errors, raw_value. cbn.
  destruct (raw !! "title") as [t|], (raw !! "category") as [c|],
    (raw !! "text") as [x|], (raw !! "isPublished") as [v|]; cbn.
  all: repeat match goal with
         | |- context [Validator.isEmpty ?s] =>
             destruct (Validator.isEmpty s) eqn:?
         | |- context [Validator.isIn ?l ?s] =>
             destruct (Validator.isIn l s) eqn:?
         end; cbn.
  all: repeat match goal with
         | E : Validator.isEmpty _ = false |- _ => apply isEmpty_false in E
         | E : Validator.isEmpty _ = true |- _ => apply isEmpty_true in E
         end.
  all: split;
    [ intros E; try done; repeat split; intros ? [= <-]; done
    | intros (Ht & Hc & Hx); try done ].
  all: repeat match goal with
         | Hs : forall _, Some _ = Some _ -> _ |- _ =>
             specialize (Hs _ eq_refl)
         end; congruence.
Qed.

Lemma postNewComment_body raw :
  field (run_chains postNewComment_chains raw).1 "text"
  = VString (removeDangerousScriptTags
               (Validator.escape (Validator.trim (input raw "text")))).
Proof. chain_at 0%nat postNewComment_paths. Qed.

Lemma editComment_body raw :
  field (run_chains editComment_chains raw).1 "text"
  = VString (removeDangerousScriptTags (Validator.trim (input raw "text"))).
Proof. chain_at 0%nat editComment_paths. Qed.

Lemma postNewComment_errors raw :
  (run_chains postNewComment_chains raw).2 = [] <->
  Validator.trim (input raw "text") <> EmptyString.
Proof. chain_errors postNewComment_paths; split; done. Qed.

Lemma editComment_errors raw :
  (run_chains editComment_chains raw).2 = [] <->
  Validator.trim (input raw "text") <> EmptyString.
Proof. chain_errors editComment_paths; split; done. Qed.

End HandlerChains.

(** ** The identifier guard *)

Section Guard.
Context {X : Externals}.

(** Every endpoint that checks its identifier answers 400 with
    [INVALID_ID] on a malformed one, before any persistence call. *)
Lemma identifier_guard e env req db k :
  e <> PostNewComment -> idParam e = Some k ->
  ObjectId_isValid (req_params req !! k) = false ->
  handle e env req db = (inr (message_response 400 INVALID_ID), db, []).
Proof.
  intros Hne Hk Hbad.
  destruct e; simpl in Hk; try done; injection Hk as <-; simpl;
    unfold getSpecificPost, editPost, publishPost, deletePost,
      getSpecificComment, editComment, deleteComment;
    repeat match goal with
           | |- context [ExpressValidator.run_chains ?cs ?raw] =>
               destruct (ExpressValidator.run_chains cs raw)
           end;
    rewrite Hbad; reflexivity.
Qed.

(** [postNewComment] has no such check: whatever the request, it never
    answers 400. *)
Lemma postNewComment_never_400 env req db r :
  response (postNewComment env req db) = inr r -> status r <> 400.
Proof.
  unfold postNewComment.
  destruct (ExpressValidator.run_chains _ _) as [reqBody [|e errors]].
  2: { intros [= <-]. done. }
  unfold newObjectId.
  destruct (req_query req !! "commenterID") as [c|];
    [destruct (parseObjectId c); [|done]|];
  (destruct (req_params req !! "postID") as [p|] eqn:Ep;
    [destruct (parseObjectId p) eqn:Ei; [|done]|]).
  all: run_handler; unfold castObjectId; simpl; rewrite ?Ei; run_handler.
  all: repeat match goal with
         | |- context [match ?m !! ?i with _ => _ end] =>
             destruct (m !! i); run_handler
         end.
  all: intros [= <-]; done.
Qed.

End Guard.

(** C1. At a malformed post identifier [postNewComment] does not answer 400
    with [INVALID_ID]: with a comment text that passes validation the
    construction of the ObjectId throws, and with an empty text the handler
    answers 200 with the validation errors.  (The seven other endpoints
    that take an identifier do answer 400 first, see [identifier_guard].) *)
Theorem postNewComment_malformed_id :
  let with_text :=
    Sample.request [("postID", "not-an-id")]
      [("commenterID", Sample.alice)] [("text", "Hello")] in
  let without_text :=
    Sample.request [("postID", "not-an-id")]
      [("commenterID", Sample.alice)] [("text", "")] in
  @ObjectId_isValid Sample.externals (req_params with_text !! "postID")
  = false /\
  @postNewComment Sample.externals Sample.env with_text Sample.db
  = (inl BSONError, Sample.db, []) /\
  @postNewComment Sample.externals Sample.env without_text Sample.db
  = (inr {| status := 200;
            json := JErrors
              [{| ExpressValidator.err_value := ExpressValidator.VString "";
                  ExpressValidator.err_msg := "Comment cannot be empty";
                  ExpressValidator.err_path := "text" |}] |},
     Sample.db, []).
Proof. repeat split; vm_compute; reflexivity. Qed.

(** ** Validation failures *)

(** C6, as stated, fails for an edit request: with a malformed identifier
    the handler answers 400 even though a validation rule failed. *)
Lemma validation_failure_behind_invalid_id :
  ~ (forall (Y : Externals) (req : Request) (db : DB),
       (ExpressValidator.run_chains (@editComment_chains Y) (req_body req)).2
       <> [] ->
       exists errors,
         response (@editComment Y req db)
         = inr {| status := 200; json := JErrors errors |}).
Proof.
  intros Hall.
  destruct (Hall Sample.externals
              (Sample.request [("commentID", "bad")] [] [("text", "")])
              Sample.db) as [errors Herr].
  - vm_compute. discriminate.
  - vm_compute in Herr. discriminate.
Qed.

Section ValidationFailures.
Context {X : Externals}.
Import ExpressValidator.

(** C6, amended. For every create request, and for every edit request whose
    identifier is well formed, on which some validation rule fails, the
    handler answers 200 with the error array, which is not empty, and makes
    no persistence call, so the database is as it was.  In particular a
    post submitted with a title that is empty after trimming gets an error
    "Title must not be empty" and is not created. *)
Theorem validation_failure_reported (env : Env) (req : Request) (db : DB) :
  let reported (errors : list ValidationError) r :=
    errors <> [] /\
    r = (inr {| status := 200; json := JErrors errors |}, db, []) in
  let failed (cs : list ValidationChain) :=
    (run_chains cs (req_body req)).2 in
  (failed postNewPost_chains <> [] ->
   reported (failed postNewPost_chains) (postNewPost env req db)) /\
  (failed postNewComment_chains <> [] ->
   reported (failed postNewComment_chains) (postNewComment env req db)) /\
  (ObjectId_isValid (req_params req !! "postID") = true ->
   failed editPost_chains <> [] ->
   reported (failed editPost_chains) (editPost req db)) /\
  (ObjectId_isValid (req_params req !! "commentID") = true ->
   failed editComment_chains <> [] ->
   reported (failed editComment_chains) (editComment req db)) /\
  (Validator.trim (input (req_body req) "title") = EmptyString ->
   exists v errors,
     {| err_value := v; err_msg := "Title must not be empty";
        err_path := "title" |} ∈ errors /\
     postNewPost env req db
     = (inr {| status := 200; json := JErrors errors |}, db, [])).
Proof.
  intros reported failed. subst reported failed. cbn beta.
  assert (Hrun : forall cs (k : _ -> _ -> M Response),
    (run_chains cs (req_body req)).2 <> [] ->
    (forall b e errors, k b (e :: errors) db
       = (inr {| status := 200; json := JErrors (e :: errors) |}, db, [])) ->
    (let '(b, errors) := run_chains cs (req_body req) in k b errors) db
    = (inr {| status := 200;
              json := JErrors (run_chains cs (req_body req)).2 |}, db, [])).
  { intros cs k Hne Hk.
    destruct (run_chains cs (req_body req)) as [b [|e errors]]; [done|].
    apply Hk. }
  repeat split; try done.
  - unfold postNewPost. now apply Hrun.
  - unfold postNewComment. now apply Hrun.
  - unfold editPost. apply Hrun; [done|]. intros b e errors.
    match goal with Hv : ObjectId_isValid _ = true |- _ => now rewrite Hv end.
  - unfold editComment. apply Hrun; [done|]. intros b e errors.
    match goal with Hv : ObjectId_isValid _ = true |- _ => now rewrite Hv end.
  - intros Ht. destruct (postNewPost_title_error _ Ht) as [v Hv].
    exists v, (run_chains postNewPost_chains (req_body req)).2.
    split; [done|]. unfold postNewPost. apply Hrun; [|done].
    intros Hnil. rewrite Hnil in Hv. by apply elem_of_nil in Hv.
Qed.

End ValidationFailures.

(** ** Editing a post *)

Section EditPost.
Context {X : Externals}.
Import ExpressValidator.

(** C4. For an existing post and an edit request whose provided fields pass
    validation, [editPost] stores and returns, under the same identifier,
    the post whose title, category, text and [isPublished] are the
    sanitized provided values (the title trimmed and escaped, the category
    lower-cased, the text trimmed, escaped and cut into paragraphs, the
    selection turned into a boolean), each falling back to the stored value
    when the field is omitted, and whose author, timestamp and
    [commentCount] are those of the stored post; nothing else in the
    database changes. *)
Theorem editPost_merges (req : Request) (db : DB)
    (i : ObjectId) (existing : Post.t) :
  req_params req !! "postID" ≫= parseObjectId = Some i ->
  posts db !! i = Some existing ->
  (run_chains editPost_chains (req_body req)).2 = [] ->
  let raw := req_body req in
  let r := editPost req db in
  exists edited : Post.t,
    response r = inr {| status := 200; json := JPost (Some (i, edited)) |} /\
    posts (database r) = <[i := edited]> (posts db) /\
    comments (database r) = comments db /\
    authors (database r) = authors db /\
    Post.title edited
    = match raw !! "title" with
      | Some t => Validator.escape (Validator.trim t)
      | None => Post.title existing
      end /\
    Post.category edited
    = match raw !! "category" with
      | Some c => JsString.toLowerCase c
      | None => Post.category existing
      end /\
    Post.text edited
    = match raw !! "text" with
      | Some t =>
          convertToArrayOfParagraphs (Validator.escape (Validator.trim t))
      | None => Post.text existing
      end /\
    Post.isPublished edited
    = match raw !! "isPublished" with
      | Some v =>
          selectionIsYes
            (Validator.escape (JsString.toLowerCase (Validator.trim v)))
      | None => Post.isPublished existing
      end /\
    Post.author edited = Post.author existing /\
    Post.timestamp edited = Post.timestamp existing /\
    Post.commentCount edited = Post.commentCount existing.
Proof.
  intros Hi Hp Herr raw r. subst r raw. unfold editPost.
  destruct (editPost_body (req_body req)) as (Ht & Hc & Hx & Hs).
  destruct (run_chains editPost_chains (req_body req)) as [b errors].
  simpl in Herr, Ht, Hc, Hx, Hs. subst errors.
  rewrite (parsed_isValid _ _ Hi), (castObjectId_parsed _ _ Hi).
  run_handler. rewrite Hp. run_handler. rewrite ?Hp. run_handler.
  eexists. split; [reflexivity|].
  split; [reflexivity|]. split; [reflexivity|]. split; [reflexivity|].
  cbn. rewrite Ht, Hc, Hx, Hs.
  repeat split;
    match goal with
    | |- context [req_body req !! ?k] => now destruct (req_body req !! k)
    end.
Qed.

End EditPost.

(** ** The publication choice *)

Section Selection.
Context {X : Externals}.
Import ExpressValidator.

(** C8. In [postNewPost] and in [editPost] alike, a provided [isPublished]
    value becomes [true] exactly when its trimmed, lower-cased and escaped
    form is the string "yes"; any other value gives [false], the string
    "true" among them, while " YES " gives [true]. *)
Theorem isPublished_selection (raw : gmap string string) (v : string) :
  let provided := <["isPublished" := v]> raw in
  let form := Validator.escape (JsString.toLowerCase (Validator.trim v)) in
  let created :=
    asBoolean (field (run_chains postNewPost_chains provided).1 "isPublished")
  in
  let edited (existing : bool) :=
    orElse (field (run_chains editPost_chains provided).1 "isPublished")
      asBoolean existing in
  (created = true <-> form = "yes") /\
  (forall existing, edited existing = true <-> form = "yes") /\
  (v = "true" -> created = false /\ forall existing, edited existing = false) /\
  (v = " YES " -> created = true /\ forall existing, edited existing = true).
Proof.
  intros provided form created edited.
  destruct (postNewPost_body provided) as (_ & _ & _ & Hc).
  destruct (editPost_body provided) as (_ & _ & _ & He).
  assert (Hin : input provided "isPublished" = v).
  { unfold input, provided. now rewrite lookup_insert_eq. }
  assert (Hcreated : created = selectionIsYes form).
  { unfold created. now rewrite Hc, Hin. }
  assert (Hedited : forall existing, edited existing = selectionIsYes form).
  { intros existing. unfold edited. rewrite He. unfold provided.
    now rewrite lookup_insert_eq. }
  assert (Hyes : selectionIsYes form = true <-> form = "yes").
  { unfold selectionIsYes. apply String.eqb_eq. }
  split; [now rewrite Hcreated|].
  split; [intros existing; now rewrite Hedited|].
  split; intros Hv; (split; [|intros existing; rewrite Hedited];
    rewrite ?Hcreated; unfold form; now rewrite Hv).
Qed.

End Selection.

(** ** Creating a comment *)

Section CreateComment.
Context {X : Externals}.
Import ExpressValidator.

Ltac cases_of_postNewComment env req db :=
  unfold postNewComment;
  destruct (run_chains postNewComment_chains (req_body req))
    as [reqBody [|e errors]] eqn:Echains;
  [ unfold newObjectId;
    destruct (req_query req !! "commenterID") as [c|] eqn:Ec;
    [destruct (parseObjectId c) as [ci|] eqn:Eci|];
    (destruct (req_params req !! "postID") as [p|] eqn:Ep;
     [destruct (parseObjectId p) as [pi|] eqn:Epi|]);
    run_handler; unfold castObjectId; simpl;
    repeat match goal with
           | E : parseObjectId _ = Some _ |- _ => rewrite E
           end;
    run_handler;
    try (destruct (comments db !! genId env 2) as [old|] eqn:Esave;
         run_handler;
         try (match goal with
              | |- context [posts db !! ?k] =>
                  destruct (posts db !! k) as [parent|] eqn:Eparent
              end;
              run_handler))
  | ].

(** C3. Once the text has passed validation, [postNewComment] answers 201
    exactly when the insert of the comment and the increment of the parent
    post's counter both settled with a document, and the body is then the
    stored comment, populated; the insert never settles with [null]; and
    when a call settled with [null] and none was rejected (a rejection is a
    database error and propagates), the answer is 500 with
    [DATABASE_UPDATE_ERROR]. *)
Theorem postNewComment_response (env : Env) (req : Request) (db : DB) :
  (run_chains postNewComment_chains (req_body req)).2 = [] ->
  let r := postNewComment env req db in
  let insert (s : Settled) := exists i, (CommentSave i, s) ∈ trace r in
  let increment (s : Settled) :=
    exists i, (PostUpdateById i (IncCommentCount 1), s) ∈ trace r in
  ((exists resp, response r = inr resp /\ status resp = 201) <->
   insert WithDocument /\ increment WithDocument) /\
  (forall resp, response r = inr resp -> status resp = 201 ->
     exists c,
       comments (database r) !! genId env 2 = Some c /\
       json resp
       = JPopulated
           (genId env 2,
            Comments.populate_doc username_without_id (database r) c)) /\
  ~ insert WithNull /\
  (insert WithNull \/ increment WithNull ->
   (forall op, (op, Rejected) ∉ trace r) ->
   response r = inr (message_response 500 DATABASE_UPDATE_ERROR)).
Proof.
  intros Hvalid r insert increment. subst r insert increment.
  cases_of_postNewComment env req db.
  all: try (simpl in Hvalid; discriminate Hvalid).
  all: split; [|split; [|split]].
  all: try (split; [intros Hr; tidy; split; in_trace
                   |intros Ht; tidy; eexists; split; reflexivity]).
  all: try (intros resp Hr Hs; tidy; eexists; split;
            [apply lookup_insert_eq|reflexivity]).
  all: try (intros Hn; tidy; fail).
  all: intros Hnull Hrej;
    first [ reflexivity
          | by (exfalso; eapply Hrej; apply list_elem_of_here)
          | tidy ].
Qed.

End CreateComment.

(** ** The comment counter *)

Section CommentCount.
Context {X : Externals}.
Import ExpressValidator.

Lemma counts_kept_refl m : counts_kept m m.
Proof. intros i p p' Hp Hp'. congruence. Qed.

Lemma counts_kept_insert_new m j q :
  m !! j = None -> counts_kept m (<[j := q]> m).
Proof.
  intros Hj i p p' Hp Hp'.
  destruct (decide (j = i)) as [->|Hne]; [congruence|].
  rewrite lookup_insert_ne in Hp' by done. congruence.
Qed.

Lemma counts_kept_insert_same m j q q' :
  m !! j = Some q -> Post.commentCount q' = Post.commentCount q ->
  counts_kept m (<[j := q']> m).
Proof.
  intros Hj Hq i p p' Hp Hp'.
  destruct (decide (j = i)) as [->|Hne].
  - rewrite lookup_insert_eq in Hp'. congruence.
  - rewrite lookup_insert_ne in Hp' by done. congruence.
Qed.

Lemma counts_kept_delete m j : counts_kept m (delete j m).
Proof.
  intros i p p' Hp Hp'.
  destruct (decide (j = i)) as [->|Hne].
  - now rewrite lookup_delete_eq in Hp'.
  - rewrite lookup_delete_ne in Hp' by done. congruence.
Qed.

Ltac open_handler :=
  repeat (run_handler;
          unfold castObjectId, castFilter;
          match goal with
          | |- context [run_chains ?cs ?raw] =>
              destruct (run_chains cs raw) as [? [|? ?]]
          | |- context [ObjectId_isValid ?x] =>
              destruct (ObjectId_isValid x)
          | |- context [isPublishFlag ?x] => destruct (isPublishFlag x)
          | |- context [truthy ?x] => destruct (truthy x)
          | |- context [option_bind _ _ parseObjectId ?x] =>
              destruct (option_bind _ _ parseObjectId x) eqn:?
          | |- context [posts ?d !! ?i] => destruct (posts d !! i) eqn:?
          | |- context [comments ?d !! ?i] =>
              destruct (comments d !! i) eqn:?
          end);
  run_handler.

Lemma other_endpoints_keep_counts e env req db :
  e <> PostNewComment -> e <> DeleteComment ->
  counts_kept (posts db) (posts (database (handle e env req db))).
Proof.
  intros Hc Hd.
  destruct e; try done; unfold handle;
    unfold getAllPosts, getSpecificPost, postNewPost, editPost, publishPost,
      deletePost, getAllComments, getSpecificComment, editComment,
      Posts.build;
    open_handler;
    first [ apply counts_kept_refl
          | apply counts_kept_delete
          | by apply counts_kept_insert_new
          | by eapply counts_kept_insert_same ].
Qed.

(** C2. Creating a comment on a post P raises P's [commentCount] by exactly
    1 when the insert and the counter update both succeed (the answer is
    201), and leaves every other field of P and every other post alone;
    deleting a comment of P lowers P's [commentCount] by exactly 1, so that
    deleting the comment just created brings the counter back; and no
    other endpoint changes the [commentCount] of any post. *)
Theorem commentCount_maintenance :
  (forall env req db i p resp,
     req_params req !! "postID" ≫= parseObjectId = Some i ->
     posts db !! i = Some p ->
     response (postNewComment env req db) = inr resp -> status resp = 201 ->
     exists p' c,
       posts (database (postNewComment env req db)) = <[i := p']> (posts db) /\
       Post.commentCount p' = Post.commentCount p + 1 /\
       same_but_commentCount p p' /\
       comments (database (postNewComment env req db)) !! genId env 2
       = Some c /\
       Comment.post c = i) /\
  (forall req db j c p,
     req_params req !! "commentID" ≫= parseObjectId = Some j ->
     comments db !! j = Some c ->
     posts db !! Comment.post c = Some p ->
     exists p',
       response (deleteComment req db)
       = inr {| status := 204; json := JComment (Some (j, c)) |} /\
       posts (database (deleteComment req db))
       = <[Comment.post c := p']> (posts db) /\
       Post.commentCount p' = Post.commentCount p - 1 /\
       same_but_commentCount p p' /\
       comments (database (deleteComment req db)) = delete j (comments db)) /\
  (forall env req req' db i p resp,
     req_params req !! "postID" ≫= parseObjectId = Some i ->
     posts db !! i = Some p ->
     response (postNewComment env req db) = inr resp -> status resp = 201 ->
     req_params req' !! "commentID" ≫= parseObjectId = Some (genId env 2) ->
     posts (database
              (deleteComment req' (database (postNewComment env req db))))
     !! i = Some p) /\
  (forall e env req db,
     e <> PostNewComment -> e <> DeleteComment ->
     counts_kept (posts db) (posts (database (handle e env req db)))).
Proof.
  assert (Hcreate : forall env req db i p resp,
     req_params req !! "postID" ≫= parseObjectId = Some i ->
     posts db !! i = Some p ->
     response (postNewComment env req db) = inr resp -> status resp = 201 ->
     exists c,
       posts (database (postNewComment env req db))
       = <[i := applyPostUpdate (IncCommentCount 1) p]> (posts db) /\
       comments (database (postNewComment env req db)) !! genId env 2
       = Some c /\
       Comment.post c = i).
  { intros env req db i p resp Hi Hp.
    unfold postNewComment.
    destruct (run_chains postNewComment_chains (req_body req))
      as [reqBody [|e errors]]; [|by intros [= <-]].
    destruct (req_params req !! "postID") as [s|] eqn:Es; [|done].
    simpl in Hi. unfold newObjectId, castObjectId. simpl. rewrite Hi.
    destruct (req_query req !! "commenterID") as [c|];
      [destruct (parseObjectId c); [|done]|];
      run_handler;
      (destruct (comments db !! genId env 2);
       run_handler; rewrite Hp; run_handler; [done|]);
      intros _ _;
      (eexists; split; [reflexivity|]; split;
       [apply lookup_insert_eq|reflexivity]). }
  assert (Hdelete : forall req db j c p,
     req_params req !! "commentID" ≫= parseObjectId = Some j ->
     comments db !! j = Some c ->
     posts db !! Comment.post c = Some p ->
     deleteComment req db
     = (inr {| status := 204; json := JComment (Some (j, c)) |},
        {| posts :=
             <[Comment.post c := applyPostUpdate (IncCommentCount (-1)) p]>
               (posts db);
           comments := delete j (comments db);
           authors := authors db |},
        [(CommentDeleteById j, WithDocument);
         (PostUpdateById (Comment.post c) (IncCommentCount (-1)),
          WithDocument)])).
  { intros req db j c p Hj Hc Hp. unfold deleteComment.
    rewrite (parsed_isValid _ _ Hj), (castObjectId_parsed _ _ Hj).
    run_handler. rewrite Hc. run_handler. rewrite Hp. reflexivity. }
  split; [|split; [|split]].
  - intros env req db i p resp Hi Hp Hr Hs.
    destruct (Hcreate env req db i p resp Hi Hp Hr Hs) as (c & Hposts & Hc).
    exists (applyPostUpdate (IncCommentCount 1) p), c.
    split; [done|]. split; [reflexivity|]. split; [|done].
    repeat split.
  - intros req db j c p Hj Hc Hp.
    rewrite (Hdelete req db j c p Hj Hc Hp).
    exists (applyPostUpdate (IncCommentCount (-1)) p).
    split; [reflexivity|]. split; [reflexivity|]. split; [reflexivity|].
    split; [|reflexivity]. repeat split.
  - intros env req req' db i p resp Hi Hp Hr Hs Hj.
    destruct (Hcreate env req db i p resp Hi Hp Hr Hs)
      as (c & Hposts & Hc & Hpost).
    rewrite (Hdelete req' _ (genId env 2) c
               (applyPostUpdate (IncCommentCount 1) p) Hj Hc).
    + unfold database. cbn [fst snd posts]. rewrite Hpost, lookup_insert_eq.
      f_equal. destruct p. cbn. f_equal. lia.
    + rewrite Hpost, Hposts. apply lookup_insert_eq.
  - apply other_endpoints_keep_counts.
Qed.

End CommentCount.

(** ** The text of a comment *)

Section CommentText.
Context {X : Externals}.
Import ExpressValidator.

Lemma editComment_stores req db j c :
  req_params req !! "commentID" ≫= parseObjectId = Some j ->
  comments db !! j = Some c ->
  Validator.trim (input (req_body req) "text") <> EmptyString ->
  exists c',
    response (editComment req db)
    = inr {| status := 200; json := JComment (Some (j, c')) |} /\
    comments (database (editComment req db)) = <[j := c']> (comments db) /\
    posts (database (editComment req db)) = posts db /\
    Comment.text c'
    = removeDangerousScriptTags
        (Validator.trim (input (req_body req) "text")) /\
    same_but_text c c'.
Proof.
  intros Hj Hc Htext. unfold editComment.
  pose proof (editComment_body (req_body req)) as Hb.
  apply editComment_errors in Htext.
  destruct (run_chains editComment_chains (req_body req)) as [b errors].
  simpl in Hb, Htext. subst errors.
  rewrite (parsed_isValid _ _ Hj), (castObjectId_parsed _ _ Hj).
  run_handler. rewrite Hc. run_handler. rewrite ?Hc. run_handler.
  eexists. split; [reflexivity|]. split; [reflexivity|].
  split; [reflexivity|]. cbn. rewrite Hb. repeat split.
Qed.

Lemma postNewComment_stores env req db resp :
  response (postNewComment env req db) = inr resp ->
  Validator.trim (input (req_body req) "text") <> EmptyString ->
  exists c',
    comments (database (postNewComment env req db)) !! genId env 2
    = Some c' /\
    Comment.text c'
    = removeDangerousScriptTags
        (Validator.escape (Validator.trim (input (req_body req) "text"))).
Proof.
  intros Hr Htext. revert Hr. unfold postNewComment.
  pose proof (postNewComment_body (req_body req)) as Hb.
  apply postNewComment_errors in Htext.
  destruct (run_chains postNewComment_chains (req_body req)) as [b errors].
  simpl in Hb, Htext. subst errors.
  unfold newObjectId, castObjectId.
  destruct (req_query req !! "commenterID") as [c|];
    [destruct (parseObjectId c); [|done]|];
    (destruct (req_params req !! "postID") as [p|];
     [simpl; destruct (parseObjectId p); [|done]|]);
    run_handler;
    (destruct (comments db !! genId env 2); run_handler;
     repeat match goal with
            | |- context [posts db !! ?k] => destruct (posts db !! k)
            end;
     run_handler);
    try (intros [=]; fail);
    intros _; (eexists; split; [apply lookup_insert_eq|]);
    cbn; now rewrite Hb.
Qed.

(** C10. The chain of [editComment] trims the text, requires it not to be
    empty and strips script tags, without escaping; the chain of
    [postNewComment] escapes the trimmed text before the same stripping.
    So an edited comment is stored with the characters of its trimmed text
    as they are while a created comment is stored with them escaped: the
    text "1 < 2 & 3" is stored as it is by the edit and as
    "1 &lt; 2 &amp; 3" by the creation. *)
Theorem comment_text_escaping :
  (forall raw : gmap string string,
     let text := input raw "text" in
     field (run_chains editComment_chains raw).1 "text"
     = VString (removeDangerousScriptTags (Validator.trim text)) /\
     field (run_chains postNewComment_chains raw).1 "text"
     = VString (removeDangerousScriptTags
                  (Validator.escape (Validator.trim text))) /\
     ((run_chains editComment_chains raw).2 = [] <->
      Validator.trim text <> EmptyString) /\
     ((run_chains postNewComment_chains raw).2 = [] <->
      Validator.trim text <> EmptyString)) /\
  (forall req db j c,
     req_params req !! "commentID" ≫= parseObjectId = Some j ->
     comments db !! j = Some c ->
     Validator.trim (input (req_body req) "text") <> EmptyString ->
     exists c',
       comments (database (editComment req db)) !! j = Some c' /\
       Comment.text c'
       = removeDangerousScriptTags
           (Validator.trim (input (req_body req) "text"))) /\
  (forall env req db resp,
     response (postNewComment env req db) = inr resp ->
     Validator.trim (input (req_body req) "text") <> EmptyString ->
     exists c',
       comments (database (postNewComment env req db)) !! genId env 2
       = Some c' /\
       Comment.text c'
       = removeDangerousScriptTags
           (Validator.escape
              (Validator.trim (input (req_body req) "text")))) /\
  Comment.text <$>
    comments
      (database
         (@editComment Sample.externals
            (Sample.request [("commentID", Sample.commentA)] []
               [("text", "1 < 2 & 3")])
            Sample.db))
    !! Sample.commentA
  = Some "1 < 2 & 3" /\
  Comment.text <$>
    comments
      (database
         (@postNewComment Sample.externals Sample.env
            (Sample.request [("postID", Sample.postA)]
               [("commenterID", Sample.alice)] [("text", "1 < 2 & 3")])
            Sample.db))
    !! genId Sample.env 2
  = Some "1 &lt; 2 &amp; 3".
Proof.
  split; [|split; [|split; [|split]]].
  - intros raw text. subst text.
    split; [apply editComment_body|]. split; [apply postNewComment_body|].
    split; [apply editComment_errors|apply postNewComment_errors].
  - intros req db j c Hj Hc Ht.
    destruct (editComment_stores req db j c Hj Hc Ht)
      as (c' & _ & Hm & _ & Htext & _).
    exists c'. split; [|done]. rewrite Hm. apply lookup_insert_eq.
  - apply postNewComment_stores.
  - vm_compute. reflexivity.
  - vm_compute. reflexivity.
Qed.

End CommentText.

(** ** Listing comments *)

Section ListComments.
Context {X : Externals}.

#[local] Instance newer_total {A} (ts : A -> Z) : Total (newer ts).
Proof. intros x y. unfold newer. lia. Qed.

Lemma sort_newest_first_sorted {A} (ts : A -> Z) l :
  Sorted (newer ts) (sort_newest_first ts l).
Proof. apply Sorted_merge_sort; apply _. Qed.

Lemma sort_newest_first_perm {A} (ts : A -> Z) l :
  sort_newest_first ts l ≡ₚ l.
Proof. apply merge_sort_Permutation. Qed.

(** With well-formed filter identifiers [getAllComments] answers with the
    comments that match, and only those, newest first. *)
Lemma getAllComments_listing req db f :
  searchFilter req f ->
  exists l,
    getAllComments req db
    = (inr {| status := 200; json := JPopulatedList l |}, db,
       [(CommentFind f, WithDocument)]) /\
    Sorted (newer pc_timestamp) l /\
    (forall i pc, (i, pc) ∈ l <->
       exists c, comments db !! i = Some c /\ matches f c = true /\
                 pc = Comments.populate_doc username_without_id db c).
Proof.
  intros (Hp & Hp' & Hc & Hc'). unfold getAllComments, castFilter, castObjectId.
  destruct f as [fp fc]. simpl in *.
  destruct (truthy (req_params req !! "postID")) as [s|]; simpl in *;
    [destruct (parseObjectId s); [|by specialize (Hp' (eq_sym Hp))]|];
    (destruct (truthy (req_params req !! "readerID")) as [t|]; simpl in *;
     [destruct (parseObjectId t); [|by specialize (Hc' (eq_sym Hc))]|]);
    subst fp fc.
  all: run_handler; eexists; (split; [reflexivity|]).
  all: split; [apply sort_newest_first_sorted|].
  all: intros i pc; rewrite sort_newest_first_perm, list_elem_of_fmap.
  all: split;
    [ intros ([j c] & [= -> ->] & Hin);
      apply list_elem_of_In, filter_In in Hin as [Hin Hm];
      apply list_elem_of_In, elem_of_map_to_list in Hin; eauto
    | intros (c & Hlook & Hm & ->); exists (i, c); split; [done|];
      apply list_elem_of_In, filter_In; split; [|done];
      apply list_elem_of_In, elem_of_map_to_list; done ].
Qed.

(** The selection ['username -_id'] keeps nothing of an Author document,
    whose fields are [_id] and [name]. *)
Lemma project_author_empty (i : ObjectId) (a : Author.t) :
  project username_without_id (Author.fields i a) = [].
Proof. reflexivity. Qed.

Lemma populate_doc_commenter db c :
  pc_commenter (Comments.populate_doc username_without_id db c)
  = (fun _ => []) <$> authors db !! Comment.commenter c.
Proof. unfold Comments.populate_doc. simpl. now destruct (authors db !! _). Qed.

End ListComments.

(** C9. [getAllComments] populates the commenter with the selection
    ['username -_id'], but an Author document has no [username] path, only
    [name]: in the sample database, where the one comment was written by
    the author named "alice", the listed comment carries a commenter with
    no field at all, as the selection keeps no field of any Author
    document.  The identifier is suppressed, and the filtering and the
    ordering are as described (see [getAllComments_listing]). *)
Theorem getAllComments_commenter_without_name :
  authors Sample.db !! Sample.alice = Some {| Author.name := "alice" |} /\
  @getAllComments Sample.externals (Sample.request [] [] []) Sample.db
  = (inr {| status := 200;
            json := JPopulatedList
              [(Sample.commentA,
                {| pc_commenter := Some [];
                   pc_post := Sample.postA;
                   pc_timestamp := 1650000000000;
                   pc_text := "Nice";
                   pc_replies := [] |})] |},
     Sample.db,
     [(CommentFind {| by_post := None; by_commenter := None |},
       WithDocument)]) /\
  (forall (i : ObjectId) (a : Author.t),
     project username_without_id (Author.fields i a) = []).
Proof.
  split; [reflexivity|]. split; [vm_compute; reflexivity|].
  intros i a. reflexivity.
Qed.

(** ** The theorems at work on the sample database *)

Section Witnesses.
#[local] Existing Instance Sample.externals.
Import ExpressValidator.

Lemma publishPost_correct_witness :
  let malformed :=
    Sample.request [("postID", "nope")] [("publish", "true")] [] in
  let maybe :=
    Sample.request [("postID", Sample.postA)] [("publish", "maybe")] [] in
  let publish :=
    Sample.request [("postID", Sample.postA)] [("publish", "true")] [] in
  response (publishPost malformed Sample.db)
  = inr (message_response 400 INVALID_ID) /\
  response (publishPost maybe Sample.db)
  = inr (message_response 400 INVALID_QUERY) /\
  Post.isPublished <$> posts (database (publishPost publish Sample.db))
                       !! Sample.postA
  = Some true.
Proof.
  intros malformed maybe publish. split; [|split].
  - destruct (publishPost_correct malformed Sample.db) as (Hbad & _ & _).
    rewrite Hbad; [reflexivity|]. vm_compute. reflexivity.
  - destruct (publishPost_correct maybe Sample.db) as (_ & Hquery & _).
    rewrite Hquery; [reflexivity| | |]; vm_compute; [reflexivity|..];
      discriminate.
  - destruct (publishPost_correct publish Sample.db) as (_ & _ & Hok).
    specialize (Hok Sample.postA true).
    assert (Hp : posts Sample.db !! Sample.postA <> None)
      by (vm_compute; discriminate).
    destruct (posts Sample.db !! Sample.postA) as [p|]; [|done].
    destruct Hok as (p' & _ & Hpub & _ & Hposts & _);
      [vm_compute; reflexivity..|].
    rewrite Hposts, lookup_insert_eq. simpl. now rewrite Hpub.
Defined.

Lemma editPost_merges_witness :
  let req :=
    Sample.request [("postID", Sample.postA)] [] [("title", " New ")] in
  exists existing edited,
    posts Sample.db !! Sample.postA = Some existing /\
    (run_chains editPost_chains (req_body req)).2 = [] /\
    response (editPost req Sample.db)
    = inr {| status := 200; json := JPost (Some (Sample.postA, edited)) |} /\
    Post.title edited = "New" /\
    Post.category edited = Post.category existing /\
    Post.commentCount edited = Post.commentCount existing.
Proof.
  intros req.
  assert (Hex : exists existing,
            posts Sample.db !! Sample.postA = Some existing)
    by (vm_compute; eauto).
  destruct Hex as [existing Hex].
  assert (Hi : req_params req !! "postID" ≫= parseObjectId
               = Some Sample.postA)
    by (vm_compute; reflexivity).
  assert (Herr : (run_chains editPost_chains (req_body req)).2 = [])
    by (vm_compute; reflexivity).
  destruct (editPost_merges req Sample.db Sample.postA existing Hi Hex Herr)
    as (edited & Hr & _ & _ & _ & Ht & Hc & _ & _ & _ & _ & Hn).
  exists existing, edited. repeat split; try done.
Defined.

Lemma postNewComment_response_witness :
  let req :=
    Sample.request [("postID", Sample.postA)]
      [("commenterID", Sample.alice)] [("text", "Hello")] in
  let orphan :=
    Sample.request [("postID", Sample.commentA)]
      [("commenterID", Sample.alice)] [("text", "Hello")] in
  (run_chains postNewComment_chains (req_body req)).2 = [] /\
  (exists resp,
     response (postNewComment Sample.env req Sample.db) = inr resp /\
     status resp = 201) /\
  response (postNewComment Sample.env orphan Sample.db)
  = inr (message_response 500 DATABASE_UPDATE_ERROR).
Proof.
  intros req orphan.
  assert (Herr : (run_chains postNewComment_chains (req_body req)).2 = [])
    by (vm_compute; reflexivity).
  split; [done|]. split.
  - destruct (postNewComment_response Sample.env req Sample.db Herr)
      as (Hiff & _).
    apply Hiff. split; eexists; vm_compute.
    + apply list_elem_of_here.
    + apply list_elem_of_further, list_elem_of_here.
  - destruct (postNewComment_response Sample.env orphan Sample.db Herr)
      as (_ & _ & _ & Hnull).
    apply Hnull.
    + right. eexists. vm_compute.
      apply list_elem_of_further, list_elem_of_here.
    + intros op Hop. vm_compute in Hop.
      repeat (apply elem_of_cons in Hop as [Hop|Hop]; [discriminate Hop|]).
      by apply elem_of_nil in Hop.
Defined.

Lemma validation_failure_reported_witness :
  let req :=
    Sample.request [("postID", Sample.postA); ("commentID", Sample.commentA)]
      [] [("title", "  "); ("category", "Nope")] in
  trace (postNewPost Sample.env req Sample.db) = [] /\
  trace (postNewComment Sample.env req Sample.db) = [] /\
  trace (editPost req Sample.db) = [] /\
  trace (editComment req Sample.db) = [] /\
  exists errors,
    response (postNewPost Sample.env req Sample.db)
    = inr {| status := 200; json := JErrors errors |}.
Proof.
  intros req.
  destruct (validation_failure_reported Sample.env req Sample.db)
    as (Hpost & Hcomment & Hedit & Heditc & Htitle).
  split; [|split; [|split; [|split]]].
  - destruct Hpost as [_ ->]; [vm_compute; discriminate|reflexivity].
  - destruct Hcomment as [_ ->]; [vm_compute; discriminate|reflexivity].
  - destruct Hedit as [_ ->];
      [vm_compute; reflexivity|vm_compute; discriminate|reflexivity].
  - destruct Heditc as [_ ->];
      [vm_compute; reflexivity|vm_compute; discriminate|reflexivity].
  - destruct Htitle as (v & errors & _ & ->); [vm_compute; reflexivity|].
    exists errors. reflexivity.
Defined.

Lemma isPublished_selection_witness :
  asBoolean
    (field (run_chains postNewPost_chains {["isPublished" := "true"]}).1
       "isPublished") = false /\
  asBoolean
    (field (run_chains postNewPost_chains {["isPublished" := " YES "]}).1
       "isPublished") = true.
Proof.
  split.
  - destruct (isPublished_selection ∅ "true") as (_ & _ & Htrue & _).
    now destruct (Htrue eq_refl).
  - destruct (isPublished_selection ∅ " YES ") as (_ & _ & _ & Hyes).
    now destruct (Hyes eq_refl).
Defined.

Lemma commentCount_maintenance_witness :
  let create :=
    Sample.request [("postID", Sample.postA)]
      [("commenterID", Sample.alice)] [("text", "Hello")] in
  let remove := Sample.request [("commentID", Sample.commentA)] [] [] in
  let remove_created :=
    Sample.request [("commentID", genId Sample.env 2)] [] [] in
  let created := database (postNewComment Sample.env create Sample.db) in
  Post.commentCount <$> posts Sample.db !! Sample.postA = Some 1 /\
  Post.commentCount <$> posts created !! Sample.postA = Some 2 /\
  Post.commentCount <$>
    posts (database (deleteComment remove Sample.db)) !! Sample.postA
  = Some 0 /\
  Post.commentCount <$>
    posts (database (deleteComment remove_created created)) !! Sample.postA
  = Some 1 /\
  counts_kept (posts Sample.db)
    (posts (database (handle DeletePost Sample.env create Sample.db))).
Proof.
  intros create remove remove_created created.
  destruct commentCount_maintenance as (Hcreate & Hdelete & Hround & Hframe).
  assert (Hex : exists p, posts Sample.db !! Sample.postA = Some p /\
                          Post.commentCount p = 1)
    by (vm_compute; eauto).
  destruct Hex as (p & Hp & Hcount).
  assert (Hi : req_params create !! "postID" ≫= parseObjectId
               = Some Sample.postA) by (vm_compute; reflexivity).
  assert (Hresp : exists resp,
            response (postNewComment Sample.env create Sample.db) = inr resp /\
            status resp = 201) by (vm_compute; eauto).
  destruct Hresp as (resp & Hresp & Hstatus).
  split; [now rewrite Hp; simpl; rewrite Hcount|].
  split; [|split; [|split]].
  - destruct (Hcreate Sample.env create Sample.db Sample.postA p resp
                Hi Hp Hresp Hstatus) as (p' & c & Hposts & Hinc & _).
    unfold created. rewrite Hposts, lookup_insert_eq. simpl.
    rewrite Hinc, Hcount. reflexivity.
  - assert (Hc : exists c, comments Sample.db !! Sample.commentA = Some c /\
                           Comment.post c = Sample.postA)
      by (vm_compute; eauto).
    destruct Hc as (c & Hc & Hpost).
    assert (Hj : req_params remove !! "commentID" ≫= parseObjectId
                 = Some Sample.commentA) by (vm_compute; reflexivity).
    rewrite <- Hpost in Hp.
    destruct (Hdelete remove Sample.db Sample.commentA c p Hj Hc Hp)
      as (p' & _ & Hposts & Hdec & _).
    rewrite Hposts, Hpost, lookup_insert_eq. simpl.
    rewrite Hdec, Hcount. reflexivity.
  - assert (Hj : req_params remove_created !! "commentID" ≫= parseObjectId
                 = Some (genId Sample.env 2)) by (vm_compute; reflexivity).
    unfold created.
    rewrite (Hround Sample.env create remove_created Sample.db Sample.postA
               p resp Hi Hp Hresp Hstatus Hj).
    simpl. now rewrite Hcount.
  - apply Hframe; discriminate.
Defined.

Lemma comment_text_escaping_witness :
  let edit :=
    Sample.request [("commentID", Sample.commentA)] []
      [("text", " <b>bold</b> ")] in
  let create :=
    Sample.request [("postID", Sample.postA)]
      [("commenterID", Sample.alice)] [("text", " <b>bold</b> ")] in
  Comment.text <$>
    comments (database (editComment edit Sample.db)) !! Sample.commentA
  = Some "<b>bold</b>" /\
  Comment.text <$>
    comments (database (postNewComment Sample.env create Sample.db))
    !! genId Sample.env 2
  = Some "&lt;b&gt;bold&lt;&#x2F;b&gt;".
Proof.
  intros edit create.
  destruct (comment_text_escaping (X := Sample.externals))
    as (_ & Hedit & Hcreate & _).
  split.
  - assert (Hc : exists c, comments Sample.db !! Sample.commentA = Some c)
      by (vm_compute; eauto).
    destruct Hc as (c & Hc).
    destruct (Hedit edit Sample.db Sample.commentA c) as (c' & Hl & Ht);
      [vm_compute; reflexivity|done|vm_compute; discriminate|].
    rewrite Hl. simpl. rewrite Ht. vm_compute. reflexivity.
  - assert (Hresp : exists resp,
              response (postNewComment Sample.env create Sample.db)
              = inr resp) by (vm_compute; eauto).
    destruct Hresp as (resp & Hresp).
    destruct (Hcreate Sample.env create Sample.db resp Hresp)
      as (c' & Hl & Ht); [vm_compute; discriminate|].
    rewrite Hl. simpl. rewrite Ht. vm_compute. reflexivity.
Defined.

End Witnesses.
